(** * go-spacemesh: the API configuration and the gRPC node and smesher services

    A shallow embedding of [api/config/config.go] and of the two services of
    [api/grpcserver] (NodeService and SmesherService), with the properties of
    their specification stated over it.

    Conventions of the embedding:
    - a Go pointer to a message ([*pb.X]) is an [option]; [nil] is [None];
    - a Go pair of results [(resp, err)] is a Rocq pair of options;
    - a method that mutates its receiver returns the receiver's new value;
    - calls to collaborators (interfaces of package [api]) run in a state
      monad over the state of the node, the [World];
    - fixed-width integers are [Z] with the conversions written out;
    - a channel is the finite list of the values it delivers, closed after
      them or not;
    - the [ctx] argument of the endpoints, which none of them reads, is left
      out, and logging ([log.Info], [log.Error]) is not modelled. *)

From Stdlib Require Import ZArith String Bool Lia.
From Stdlib.Strings Require Import Byte.
From stdpp Require Import base list.

Local Open Scope Z_scope.

(** ** Go's builtins used by the packages *)

(** The builtin interface [error]: a value with an [Error() string] method. *)
Class error (E : Type) : Type := Error : E -> string.

(** Package [errors]: [errors.New(text)] is an [*errorString] holding the
    text, which its [Error] method returns. *)
Module errors.

Record errorString : Type := New { s : string }.

#[global] Instance errorString_error : error errorString := s.

End errors.

(** Conversions between integer types wrap around: [uint32(x)], [uint64(x)]
    and, for the signed enums of the protocol, [int32(x)]. *)
Definition uint32 (x : Z) : Z := x mod 2 ^ 32.
Definition uint64 (x : Z) : Z := x mod 2 ^ 64.
Definition int32 (x : Z) : Z := (x + 2 ^ 31) mod 2 ^ 32 - 2 ^ 31.

(** ** Package [config] *)

Module config.

Local Open Scope string_scope.

Definition defaultStartGRPCServer : bool := false.
Definition defaultGRPCServerPort : Z := 9091.
Definition defaultNewGRPCServerPort : Z := 9092.
Definition defaultStartJSONServer : bool := false.
Definition defaultStartNewJSONServer : bool := false.
Definition defaultJSONServerPort : Z := 9090.
Definition defaultNewJSONServerPort : Z := 9093.
Definition defaultStartNodeService : bool := false.
Definition defaultStartMeshService : bool := false.

(** [Config] defines the api config params. *)
Record Config : Type := mkConfig {
  StartGrpcServer : bool;
  StartGrpcServices : list string;
  GrpcServerPort : Z;
  NewGrpcServerPort : Z;
  StartJSONServer : bool;
  StartNewJSONServer : bool;
  JSONServerPort : Z;
  NewJSONServerPort : Z;
  StartNodeService : bool;
  StartMeshService : bool
}.

(** The two assignments of [ParseServicesList]: [s.StartMeshService = true]
    and [s.StartNodeService = true]. *)
Definition set_StartMeshService (b : bool) (s : Config) : Config :=
  mkConfig (StartGrpcServer s) (StartGrpcServices s) (GrpcServerPort s)
    (NewGrpcServerPort s) (StartJSONServer s) (StartNewJSONServer s)
    (JSONServerPort s) (NewJSONServerPort s) (StartNodeService s) b.

Definition set_StartNodeService (b : bool) (s : Config) : Config :=
  mkConfig (StartGrpcServer s) (StartGrpcServices s) (GrpcServerPort s)
    (NewGrpcServerPort s) (StartJSONServer s) (StartNewJSONServer s)
    (JSONServerPort s) (NewJSONServerPort s) b (StartMeshService s).

(** [DefaultConfig] defines the default configuration options for api; the
    nil slice of services is the empty list. *)
Definition DefaultConfig : Config :=
  {| StartGrpcServer := defaultStartGRPCServer;
     StartGrpcServices := [];
     GrpcServerPort := defaultGRPCServerPort;
     NewGrpcServerPort := defaultNewGRPCServerPort;
     StartJSONServer := defaultStartJSONServer;
     StartNewJSONServer := defaultStartNewJSONServer;
     JSONServerPort := defaultJSONServerPort;
     NewJSONServerPort := defaultNewJSONServerPort;
     StartNodeService := defaultStartNodeService;
     StartMeshService := defaultStartMeshService |}.

(** The [for _, svc := range s.StartGrpcServices] loop with its [switch]:
    the configuration as the loop left it, and the error of the [default]
    case when the loop returned early. *)
Fixpoint rangeServices (svcs : list string) (s : Config) : Config * option errors.errorString :=
  match svcs with
  | [] => (s, None)
  | svc :: rest =>
      if (svc =? "mesh")%string then rangeServices rest (set_StartMeshService true s)
      else if (svc =? "node")%string then rangeServices rest (set_StartNodeService true s)
      else (s, Some (errors.New ("unrecognized GRPC service requested: " ++ svc)))
  end.

(** [ParseServicesList] enables the requested services. The receiver is a
    pointer: the result carries the configuration as the call left it. *)
Definition ParseServicesList (s : Config) : Config * option errors.errorString :=
  match rangeServices (StartGrpcServices s) s with
  | (s', Some err) => (s', Some err)
  | (s', None) =>
      if StartNewJSONServer s' && negb (StartNodeService s')
      then (s', Some (errors.New
             "must enable at least one GRPC service along with JSON gateway service"))
      else (s', None)
  end.

End config.

(** ** Calls into the node: a state monad over the [World] *)

(** The services hold references to subsystems of the node. [World] is the
    state of those subsystems together with the client's end of a stream; a
    call of a collaborator's method is a computation over it. *)
Definition M (World A : Type) : Type := World -> A * World.

Definition ret {World A : Type} (a : A) : M World A := fun w => (a, w).

Definition bind {World A B : Type} (m : M World A) (k : A -> M World B) : M World B :=
  fun w => let (a, w') := m w in k a w'.

(** A call of an accessor: it reads the state and leaves it as it is. *)
Definition read {World A : Type} (f : World -> A) : M World A := fun w => (f w, w).

Declare Scope go_scope.
Delimit Scope go_scope with go.
Notation "x <- m ;; k" := (bind m (fun x => k))
  (at level 100, m at next level, right associativity) : go_scope.

(** ** Package [codes] and [status] of gRPC, and [rpcstatus] *)

Module codes.

Inductive Code : Type :=
  | OK | Canceled | Unknown | InvalidArgument | DeadlineExceeded | NotFound
  | AlreadyExists | PermissionDenied | ResourceExhausted | FailedPrecondition
  | Aborted | OutOfRange | Unimplemented | Internal | Unavailable | DataLoss
  | Unauthenticated.

End codes.

Module status.

(** The [error] an endpoint returns: a gRPC status made by [status.Error] or
    [status.Errorf] (no endpoint passes a formatting verb, so the format is
    the message), or the error of a collaborator returned as it is. *)
Inductive rpcError (Err : Type) : Type :=
  | statusError (c : codes.Code) (msg : string)
  | passed (err : Err).

Arguments statusError {Err} c msg.
Arguments passed {Err} err.

Definition Error {Err : Type} (c : codes.Code) (msg : string) : rpcError Err :=
  statusError c msg.

Definition Errorf {Err : Type} (c : codes.Code) (format : string) : rpcError Err :=
  statusError c format.

End status.

Module rpcstatus.

(** [code.Code_OK], the [int32] of the protocol's OK. *)
Definition Code_OK : Z := 0.

Record Status : Type := mkStatus { Code : Z }.

End rpcstatus.

(** ** Package [types]: layers *)

Module types.

(** Modelled from the spec: [types.LayerID] (package [common/types] is not
    among the sources), "a discrete unit of progress in the underlying
    ledger's ordering", read through its [Uint64] method. *)
Record LayerID : Type := mkLayerID { Uint64 : Z }.

End types.

(** ** Package [activation]: the values of the proof-of-space backend *)

Module activation.

(** Modelled from the spec: [activation.PostOptions] (package [activation]
    is not among the sources), the specification's JobOptions, "target data
    size, storage location, throttle flag, append flag, compute-provider
    identifier", with the field names the services read. *)
Record PostOptions : Type := mkPostOptions {
  DataDir : string;
  DataSize : Z;
  Append : bool;
  Throttle : bool;
  ComputeProviderId : Z
}.

(** Modelled from the spec: [activation.PostStatus], the specification's
    ProgressEvent, "bytes-written counter, error kind, error message,
    in-progress flag", with the last options. The width of [ErrorType] is not
    fixed by the sources: it is an integer, converted where the services
    convert it. *)
Record PostStatus : Type := mkPostStatus {
  LastOptions : option PostOptions;
  InitInProgress : bool;
  BytesWritten : Z;
  ErrorType : Z;
  ErrorMessage : string
}.

(** Modelled from the spec: the compute provider of the backend, "id, model
    name, capability class"; its benchmark is a method, a parameter of the
    services below. The widths of [Id] and [ComputeAPI] are not fixed by the
    sources: they are integers, converted where the services convert them. *)
Record PostComputeProvider : Type := mkPostComputeProvider {
  Id : Z;
  Model : string;
  ComputeAPI : Z
}.

End activation.

(** ** Channels *)

Module channel.

(** A receive-only channel as the loop that ranges over it sees it: the
    values it delivers, in order, and whether it is closed after them. The
    values are finitely many; a channel that is not closed after them
    delivers nothing more, and a receive from it waits for ever. *)
Record chan (A : Type) : Type := mkChan {
  values : list A;
  closed : bool
}.

Arguments mkChan {A} values closed.
Arguments values {A} c.
Arguments closed {A} c.

(** How a call that ranges over a channel ends: it returns, it panics, or
    it blocks, waiting for ever for the next value. *)
Inductive ending (A : Type) : Type :=
  | returns (a : A)
  | panics
  | blocks.

Arguments returns {A} a.
Arguments panics {A}.
Arguments blocks {A}.

End channel.

(** ** Package [api]: the interfaces the services consume *)

Module api.

Section Interfaces.

Variables World Err Address : Type.

(** The declarations of the interfaces are not among the sources. Each is
    given with the methods that the embedded endpoints call, and a value of
    it is an implementation, which the properties quantify over. As in the
    specification, whose status fields are "read-only views into subsystem
    state owned elsewhere", an accessor reads the state of the node; a
    command runs over it and may change it. *)

(** Modelled from the spec: [api.NetworkAPI]; the node service holds it and
    calls none of its methods. *)
Record NetworkAPI : Type := mkNetworkAPI { }.

(** Modelled from the spec: [api.PeerCounter], NetworkInfo's
    "PeerCount() -> integer". *)
Record PeerCounter : Type := mkPeerCounter {
  PeerCount : World -> Z
}.

(** Modelled from the spec: [api.Syncer], SyncControl's
    "IsSynced() -> boolean". *)
Record Syncer : Type := mkSyncer {
  IsSynced : World -> bool
}.

(** Modelled from the spec: [api.TxAPI], LedgerInfo's latest seen and latest
    verified layer. *)
Record TxAPI : Type := mkTxAPI {
  LatestLayer : World -> types.LayerID;
  LatestLayerInState : World -> types.LayerID
}.

(** Modelled from the spec: [api.GenesisTimeAPI], ClockInfo's
    "CurrentLayer() -> integer". *)
Record GenesisTimeAPI : Type := mkGenesisTimeAPI {
  GetCurrentLayer : World -> types.LayerID
}.

(** Modelled from the spec: [api.SmeshingAPI], JobActivationControl's
    "Start(identity) -> fails with kind". *)
Record SmeshingAPI : Type := mkSmeshingAPI {
  StartSmeshing : Address -> M World (option Err)
}.

(** Modelled from the spec: [api.PostAPI], ComputeJobBackend's
    "ListProviders() -> sequence" and "ProgressEvents() -> event source,
    closable". [PostDataCreationProgressStream] returns a channel of
    pointers to events, any of which may be nil. *)
Record PostAPI : Type := mkPostAPI {
  PostComputeProviders : World -> list activation.PostComputeProvider;
  PostDataCreationProgressStream : World -> channel.chan (option activation.PostStatus)
}.

End Interfaces.

Arguments mkPeerCounter {World} _.
Arguments PeerCount {World} _ _.
Arguments mkSyncer {World} _.
Arguments IsSynced {World} _ _.
Arguments mkTxAPI {World} _ _.
Arguments LatestLayer {World} _ _.
Arguments LatestLayerInState {World} _ _.
Arguments mkGenesisTimeAPI {World} _.
Arguments GetCurrentLayer {World} _ _.
Arguments mkSmeshingAPI {World Err Address} _.
Arguments StartSmeshing {World Err Address} _ _ _.
Arguments mkPostAPI {World} _ _.
Arguments PostComputeProviders {World} _ _.
Arguments PostDataCreationProgressStream {World} _ _.

End api.

(** ** Package [pb]: the messages of the protocol *)

Module empty.

Record Empty : Type := mkEmpty { }.

End empty.

Module pb.

Record SimpleString : Type := mkSimpleString { Value : string }.

Record EchoRequest : Type := mkEchoRequest { EchoRequest_Msg : option SimpleString }.

Record EchoResponse : Type := mkEchoResponse { EchoResponse_Msg : option SimpleString }.

Record StatusRequest : Type := mkStatusRequest { }.

Record NodeStatus : Type := mkNodeStatus {
  ConnectedPeers : Z;
  IsSynced : bool;
  SyncedLayer : Z;
  TopLayer : Z;
  VerifiedLayer : Z
}.

Record StatusResponse : Type := mkStatusResponse {
  StatusResponse_Status : option NodeStatus
}.

Record AccountId : Type := mkAccountId { Address : list byte }.

(** Of the request, the field the endpoint reads. *)
Record StartSmeshingRequest : Type := mkStartSmeshingRequest {
  Coinbase : option AccountId
}.

Record StartSmeshingResponse : Type := mkStartSmeshingResponse {
  StartSmeshingResponse_Status : option rpcstatus.Status
}.

Record PostComputeProvider : Type := mkPostComputeProvider {
  Id : Z;
  Model : string;
  ComputeApi : Z;
  Performance : Z
}.

(** The repeated field is a slice of pointers. *)
Record PostComputeProvidersResponse : Type := mkPostComputeProvidersResponse {
  PostComputeProvidersResponse_PostComputeProvider : list (option PostComputeProvider)
}.

Record PostData : Type := mkPostData {
  Path : string;
  DataSize : Z;
  Append : bool;
  Throttle : bool;
  ProviderId : Z
}.

Record PostStatus : Type := mkPostStatus {
  InitInProgress : bool;
  BytesWritten : Z;
  ErrorType : Z;
  ErrorMessage : string;
  PostStatus_PostData : option PostData
}.

Record PostDataCreationProgressStreamResponse : Type :=
  mkPostDataCreationProgressStreamResponse {
    PostDataCreationProgressStreamResponse_Status : option PostStatus
  }.

(** The server's end of a stream of [Msg]: the generated
    [pb.XxxServer] interfaces, of which the services call [Send]. *)
Record ServerStream (World Err Msg : Type) : Type := mkServerStream {
  Send : Msg -> M World (option Err)
}.

Arguments mkServerStream {World Err Msg} _.
Arguments Send {World Err Msg} _ _ _.

End pb.

(** ** Package [grpcserver]: the node service and the smesher service *)

Module grpcserver.

Local Open Scope string_scope.
Local Open Scope go_scope.

Section Services.

Variables World Err Address : Type.
Context `{!error Err}.

(** [types.BytesToAddress], of package [common/types]. *)
Variable BytesToAddress : list byte -> Address.

(** The [Benchmark] method of a compute provider: the hashes per second it
    measured, or an error. *)
Variable Benchmark : activation.PostComputeProvider -> M World (Z * option Err).

(** The messages of the endpoints that build none of them. *)
Variables StatusStreamRequest StatusStreamResponse : Type.
Variables ErrorStreamRequest ErrorStreamResponse : Type.
Variables MinGasResponse SetMinGasRequest SetMinGasResponse : Type.

(** The result of a unary endpoint: the pointer to the response and the
    error. *)
Definition result (Resp : Type) : Type := option Resp * option (status.rpcError Err).

(** *** NodeService *)

Record NodeService : Type := mkNodeService {
  Network : api.NetworkAPI;
  Tx : api.TxAPI World;
  GenTime : api.GenesisTimeAPI World;
  PeerCounter : api.PeerCounter World;
  Syncer : api.Syncer World
}.

(** [Echo] returns the response for an echo api request. *)
Definition Echo (s : NodeService) (in_ : pb.EchoRequest) : result pb.EchoResponse :=
  match pb.EchoRequest_Msg in_ with
  | Some msg =>
      (Some {| pb.EchoResponse_Msg := Some {| pb.Value := pb.Value msg |} |}, None)
  | None => (None, Some (status.Errorf codes.InvalidArgument "Must include `Msg`"))
  end.

(** [Status] returns a status object providing information about the
    connected peers, sync status, current and verified layer. The five calls
    are made in the order of the fields of the literal. *)
Definition Status (s : NodeService) (request : pb.StatusRequest)
  : M World (result pb.StatusResponse) :=
  connectedPeers <- read (api.PeerCount (PeerCounter s)) ;;
  isSynced <- read (api.IsSynced (Syncer s)) ;;
  syncedLayer <- read (api.LatestLayer (Tx s)) ;;
  topLayer <- read (api.GetCurrentLayer (GenTime s)) ;;
  verifiedLayer <- read (api.LatestLayerInState (Tx s)) ;;
  ret (Some {| pb.StatusResponse_Status := Some
                 {| pb.ConnectedPeers := connectedPeers;
                    pb.IsSynced := isSynced;
                    pb.SyncedLayer := types.Uint64 syncedLayer;
                    pb.TopLayer := types.Uint64 topLayer;
                    pb.VerifiedLayer := types.Uint64 verifiedLayer |} |},
       None).

(** [StatusStream] is a stub for a future server-side streaming RPC endpoint. *)
Definition StatusStream (s : NodeService) (request : StatusStreamRequest)
    (stream : pb.ServerStream World Err StatusStreamResponse)
  : M World (option (status.rpcError Err)) :=
  ret None.

(** [ErrorStream] is a stub for a future server-side streaming RPC endpoint. *)
Definition ErrorStream (s : NodeService) (request : ErrorStreamRequest)
    (stream : pb.ServerStream World Err ErrorStreamResponse)
  : M World (option (status.rpcError Err)) :=
  ret None.

(** *** SmesherService *)

(** [SmesherService] exposes endpoints to manage smeshing. *)
Record SmesherService : Type := mkSmesherService {
  post : api.PostAPI World;
  smeshing : api.SmeshingAPI World Err Address
}.

(** [StartSmeshing] requests that the node begin smeshing. *)
Definition StartSmeshing (s : SmesherService) (in_ : pb.StartSmeshingRequest)
  : M World (result pb.StartSmeshingResponse) :=
  match pb.Coinbase in_ with
  | None => ret (None, Some (status.Errorf codes.InvalidArgument "`Coinbase` must be provided"))
  | Some coinbase =>
      let addr := BytesToAddress (pb.Address coinbase) in
      err <- api.StartSmeshing (smeshing s) addr ;;
      match err with
      | Some err => ret (None, Some (status.Error codes.Internal (Error err)))
      | None =>
          ret (Some {| pb.StartSmeshingResponse_Status :=
                         Some {| rpcstatus.Code := int32 rpcstatus.Code_OK |} |},
               None)
      end
  end.

(** [MinGas] returns the current mingas setting of this node. *)
Definition MinGas (s : SmesherService) (in_ : empty.Empty) : result MinGasResponse :=
  (None, Some (status.Errorf codes.Unimplemented "this endpoint is not implemented")).

(** [SetMinGas] sets the mingas setting of this node. *)
Definition SetMinGas (s : SmesherService) (in_ : SetMinGasRequest) : result SetMinGasResponse :=
  (None, Some (status.Errorf codes.Unimplemented "this endpoint is not implemented")).

(** The [for i, p := range providers] loop of [PostComputeProviders], from
    index [i] on: the slice of the response as the loop filled it, or the
    error that made the endpoint return. *)
Fixpoint rangeProviders (i : nat) (providers : list activation.PostComputeProvider)
    (res : list (option pb.PostComputeProvider))
  : M World (list (option pb.PostComputeProvider) + Err) :=
  match providers with
  | [] => ret (inl res)
  | p :: rest =>
      r <- Benchmark p ;;
      match r with
      | (_, Some err) => ret (inr err)
      | (hs, None) =>
          rangeProviders (S i) rest
            (<[ i := Some {| pb.Id := uint32 (activation.Id p);
                             pb.Model := activation.Model p;
                             pb.ComputeApi := int32 (activation.ComputeAPI p);
                             pb.Performance := uint64 hs |} ]> res)
      end
  end.

(** [PostComputeProviders] returns a list of available post compute
    providers. [make] gives a slice of [len(providers)] nil pointers. *)
Definition PostComputeProviders (s : SmesherService) (in_ : empty.Empty)
  : M World (result pb.PostComputeProvidersResponse) :=
  providers <- read (api.PostComputeProviders (post s)) ;;
  r <- rangeProviders 0 providers (replicate (length providers) None) ;;
  match r with
  | inr err => ret (None, Some (status.passed err))
  | inl res =>
      ret (Some {| pb.PostComputeProvidersResponse_PostComputeProvider := res |}, None)
  end.

Definition statusToPbStatus (status : activation.PostStatus) : pb.PostStatus :=
  {| pb.InitInProgress := activation.InitInProgress status;
     pb.BytesWritten := activation.BytesWritten status;
     pb.ErrorType := int32 (activation.ErrorType status);
     pb.ErrorMessage := activation.ErrorMessage status;
     pb.PostStatus_PostData :=
       match activation.LastOptions status with
       | Some LastOptions =>
           Some {| pb.Path := activation.DataDir LastOptions;
                   pb.DataSize := activation.DataSize LastOptions;
                   pb.Append := activation.Append LastOptions;
                   pb.Throttle := activation.Throttle LastOptions;
                   pb.ProviderId := uint32 (activation.ComputeProviderId LastOptions) |}
       | None => None
       end |}.

(** The [for status := range ...] loop of [PostDataCreationProgressStream]
    over the pointers that the channel delivers. When they are exhausted the
    loop ends if the channel is closed, and blocks if it is not.
    [statusToPbStatus] reads the fields of its argument: on a nil pointer
    it panics, before the send. *)
Fixpoint rangeProgress
    (stream : pb.ServerStream World Err pb.PostDataCreationProgressStreamResponse)
    (events : list (option activation.PostStatus)) (closed : bool)
  : M World (channel.ending (option (status.rpcError Err))) :=
  match events with
  | [] => ret (if closed then channel.returns None else channel.blocks)
  | None :: _ => ret channel.panics
  | Some status :: rest =>
      err <- pb.Send stream
               {| pb.PostDataCreationProgressStreamResponse_Status :=
                    Some (statusToPbStatus status) |} ;;
      match err with
      | Some err => ret (channel.returns (Some (status.passed err)))
      | None => rangeProgress stream rest closed
      end
  end.

(** [PostDataCreationProgressStream] exposes a stream of updates during post
    init. *)
Definition PostDataCreationProgressStream (s : SmesherService) (request : empty.Empty)
    (stream : pb.ServerStream World Err pb.PostDataCreationProgressStreamResponse)
  : M World (channel.ending (option (status.rpcError Err))) :=
  ch <- read (api.PostDataCreationProgressStream (post s)) ;;
  rangeProgress stream (channel.values ch) (channel.closed ch).

End Services.

Arguments mkNodeService {World} _ _ _ _ _.
Arguments Network {World} _.
Arguments Tx {World} _.
Arguments GenTime {World} _.
Arguments PeerCounter {World} _.
Arguments Syncer {World} _.
Arguments mkSmesherService {World Err Address} _ _.
Arguments post {World Err Address} _.
Arguments smeshing {World Err Address} _.
Arguments Echo {World Err} s in_.
Arguments Status {World Err} s request _.
Arguments StatusStream {World Err StatusStreamRequest StatusStreamResponse} s request stream _.
Arguments ErrorStream {World Err ErrorStreamRequest ErrorStreamResponse} s request stream _.
Arguments StartSmeshing {World Err Address _} BytesToAddress s in_ _.
Arguments MinGas {World Err Address MinGasResponse} s in_.
Arguments SetMinGas {World Err Address SetMinGasRequest SetMinGasResponse} s in_.
Arguments rangeProviders {World Err} Benchmark i providers res _.
Arguments PostComputeProviders {World Err Address} Benchmark s in_ _.
Arguments rangeProgress {World Err} stream events closed _.
Arguments PostDataCreationProgressStream {World Err Address} s request stream _.

End grpcserver.

(** ** What the specification calls things *)

(** The specification's names for the program's values, used to state its
    properties: a recognized service name, a name requested by a list, the
    configuration with the services of a list enabled, and its two errors. *)
Module spec.

Import config.

Local Open Scope string_scope.

Definition recognized (svc : string) : bool := (svc =? "mesh") || (svc =? "node").

Definition requested (name : string) (svcs : list string) : bool :=
  existsb (String.eqb name) svcs.

Definition enable (svcs : list string) (s : Config) : Config :=
  set_StartNodeService (StartNodeService s || requested "node" svcs)
    (set_StartMeshService (StartMeshService s || requested "mesh" svcs) s).

Definition UnknownService (svc : string) : errors.errorString :=
  errors.New ("unrecognized GRPC service requested: " ++ svc).

Definition MissingDependency : errors.errorString :=
  errors.New "must enable at least one GRPC service along with JSON gateway service".

(** The default configuration started with a list of services and with the
    secondary (new) JSON gateway as given. *)
Definition requesting (svcs : list string) (gateway : bool) : Config :=
  {| StartGrpcServer := defaultStartGRPCServer;
     StartGrpcServices := svcs;
     GrpcServerPort := defaultGRPCServerPort;
     NewGrpcServerPort := defaultNewGRPCServerPort;
     StartJSONServer := defaultStartJSONServer;
     StartNewJSONServer := gateway;
     JSONServerPort := defaultJSONServerPort;
     NewJSONServerPort := defaultNewJSONServerPort;
     StartNodeService := defaultStartNodeService;
     StartMeshService := defaultStartMeshService |}.

(** A flag that a call may only raise: it is as it was, or went from false
    to true. *)
Definition raised (before after : bool) : Prop :=
  after = before \/ (before = false /\ after = true).

(** The error of an endpoint that made the status itself. *)
Definition InvalidArgument {Err : Type} (msg : string) : status.rpcError Err :=
  status.statusError codes.InvalidArgument msg.

Definition Unimplemented {Err : Type} (msg : string) : status.rpcError Err :=
  status.statusError codes.Unimplemented msg.

Definition Internal {Err : Type} (msg : string) : status.rpcError Err :=
  status.statusError codes.Internal msg.

(** The response of a command that went well. *)
Definition statusOK : option rpcstatus.Status :=
  Some {| rpcstatus.Code := rpcstatus.Code_OK |}.

(** The entry of the response for a provider and its measured throughput. *)
Definition entry (p : activation.PostComputeProvider) (hs : Z) : pb.PostComputeProvider :=
  {| pb.Id := uint32 (activation.Id p);
     pb.Model := activation.Model p;
     pb.ComputeApi := int32 (activation.ComputeAPI p);
     pb.Performance := uint64 hs |}.

(** The message of the progress stream for an event. *)
Definition progress (e : activation.PostStatus) : pb.PostDataCreationProgressStreamResponse :=
  {| pb.PostDataCreationProgressStreamResponse_Status :=
       Some (grpcserver.statusToPbStatus e) |}.

Section Runs.

Variables World Err : Type.

Variable Benchmark : activation.PostComputeProvider -> M World (Z * option Err).

(** [benchmarked w ps hss w']: from the state [w], the benchmarks of the
    providers [ps], run in order, all succeed, with the throughputs [hss],
    and leave the state [w']. *)
Inductive benchmarked : World -> list activation.PostComputeProvider -> list Z -> World -> Prop :=
  | benchmarked_nil (w : World) : benchmarked w [] [] w
  | benchmarked_cons (w w1 w2 : World) (p : activation.PostComputeProvider) (hs : Z)
      (ps : list activation.PostComputeProvider) (hss : list Z) :
      Benchmark p w = ((hs, None), w1) ->
      benchmarked w1 ps hss w2 ->
      benchmarked w (p :: ps) (hs :: hss) w2.

Variable stream : pb.ServerStream World Err pb.PostDataCreationProgressStreamResponse.

(** [delivered w es w']: from the state [w], the messages of the events
    [es], sent in order, are all accepted by the client, and leave the state
    [w']. *)
Inductive delivered : World -> list activation.PostStatus -> World -> Prop :=
  | delivered_nil (w : World) : delivered w [] w
  | delivered_cons (w w1 w2 : World) (e : activation.PostStatus)
      (es : list activation.PostStatus) :
      pb.Send stream (progress e) w = (None, w1) ->
      delivered w1 es w2 ->
      delivered w (e :: es) w2.

End Runs.

Arguments benchmarked {World Err} Benchmark _ _ _ _.
Arguments delivered {World Err} stream _ _ _.

(** A provider of a model, of compute API class 1, and an event of a data
    creation in progress that wrote [n] bytes. *)
Definition provider (id : Z) (model : string) : activation.PostComputeProvider :=
  {| activation.Id := id; activation.Model := model; activation.ComputeAPI := 1 |}.

Definition writing (n : Z) : activation.PostStatus :=
  {| activation.LastOptions := None;
     activation.InitInProgress := true;
     activation.BytesWritten := n;
     activation.ErrorType := 0;
     activation.ErrorMessage := "" |}.

(** *** Nodes to run the services on *)

(** A node for the node service: the five values its status reads. *)
Record node : Type := mkNode {
  peers : Z;
  synced : bool;
  latest : Z;
  verified : Z;
  current : Z
}.

Definition nodeService : grpcserver.NodeService node :=
  {| grpcserver.Network := api.mkNetworkAPI;
     grpcserver.Tx :=
       api.mkTxAPI (fun w => types.mkLayerID (latest w)) (fun w => types.mkLayerID (verified w));
     grpcserver.GenTime := api.mkGenesisTimeAPI (fun w => types.mkLayerID (current w));
     grpcserver.PeerCounter := api.mkPeerCounter peers;
     grpcserver.Syncer := api.mkSyncer synced |}.

(** A smesher whose state is the coinbase it smeshes for, if it does: it
    refuses to start twice. No provider, no progress event. *)
Definition smesher : grpcserver.SmesherService (option (list byte)) errors.errorString (list byte) :=
  {| grpcserver.post := api.mkPostAPI (fun _ => []) (fun _ => channel.mkChan [] true);
     grpcserver.smeshing :=
       api.mkSmeshingAPI (fun addr w =>
         match w with
         | Some _ => (Some (errors.New "already started"), w)
         | None => (None, Some addr)
         end) |}.

(** A compute backend whose state is the log of the benchmarks run: a
    provider of the model "broken" fails its benchmark, another one measures
    a thousand hashes per second for each unit of its id. *)
Definition benchmarkLog (p : activation.PostComputeProvider)
  : M (list Z) (Z * option errors.errorString) :=
  fun w =>
    (if (activation.Model p =? "broken")%string
     then (0, Some (errors.New "benchmark failed"))
     else (1000 * activation.Id p, None),
     w ++ [activation.Id p])%list.

Definition computeService (providers : list activation.PostComputeProvider)
  : grpcserver.SmesherService (list Z) errors.errorString (list byte) :=
  {| grpcserver.post := api.mkPostAPI (fun _ => providers) (fun _ => channel.mkChan [] true);
     grpcserver.smeshing := api.mkSmeshingAPI (fun _ w => (None, w)) |}.

(** A client whose state is the list of the messages it received: it takes
    [k] messages and is gone at the next one. *)
Definition client {Msg : Type} (k : nat) : pb.ServerStream (list Msg) errors.errorString Msg :=
  pb.mkServerStream (fun msg w =>
    if (length w <? k)%nat then (None, (w ++ [msg])%list)
    else (Some (errors.New "transport is closing"), w)).

(** A backend whose progress channel is the given one, and the one whose
    channel delivers the given events and is then closed. *)
Definition channelService (ch : channel.chan (option activation.PostStatus))
  : grpcserver.SmesherService (list pb.PostDataCreationProgressStreamResponse)
      errors.errorString (list byte) :=
  {| grpcserver.post := api.mkPostAPI (fun _ => []) (fun _ => ch);
     grpcserver.smeshing := api.mkSmeshingAPI (fun _ w => (None, w)) |}.

Definition progressService (events : list activation.PostStatus)
  : grpcserver.SmesherService (list pb.PostDataCreationProgressStreamResponse)
      errors.errorString (list byte) :=
  channelService (channel.mkChan (map Some events) true).

End spec.

(** ** The rest of the two services *)

(** The endpoints below are those of [NodeService] and [SmesherService] that
    the sections above leave out, with the methods of the collaborators that
    they call. *)

Module runtime.

(** Go's [uint] is 32 or 64 bits wide, by platform; [uint(x)] wraps around. *)
Inductive platform : Type := bits32 | bits64.

Definition UintSize (p : platform) : Z :=
  match p with
  | bits32 => 32
  | bits64 => 64
  end.

Definition uint (p : platform) (x : Z) : Z := x mod 2 ^ UintSize p.

(** A call returns, or panics: in these endpoints, on reading a field
    through a nil pointer. *)
Inductive outcome (A : Type) : Type :=
  | returns (a : A)
  | panics.

Arguments returns {A} a.
Arguments panics {A}.

End runtime.

Module api_rest.

Section Interfaces.

Variables World Err Address : Type.

(** Modelled from the spec: [types.NodeID] (package [common/types] is not
    among the sources), the node's identity, of which [SmesherID] reads the
    [Key]. *)
Record NodeID : Type := mkNodeID { Key : string }.

(** Modelled from the spec: the [Start] method of [api.Syncer],
    SyncControl's "StartSync()". *)
Record Syncer : Type := mkSyncer {
  Start : M World unit
}.

(** Modelled from the spec: the other methods of [api.SmeshingAPI],
    JobActivationControl's "IsActive() -> boolean", "Stop() -> fails with
    kind", "CurrentIdentity()", "GetRewardAddress()" and
    "SetRewardAddress(addr)". *)
Record SmeshingAPI : Type := mkSmeshingAPI {
  Smeshing : World -> bool;
  StopSmeshing : M World (option Err);
  SmesherID : World -> NodeID;
  Coinbase : World -> Address;
  SetCoinbase : Address -> M World unit
}.

(** Modelled from the spec: the other methods of [api.PostAPI],
    ComputeJobBackend's "Status()", "Start(options) -> fails with kind on
    invalid input" and "Stop(deleteArtifacts) -> fails with kind".
    [PostStatus] returns a pointer and an error; of the two results of
    [CreatePostData] the endpoint drops the first, which is left out. *)
Record PostAPI : Type := mkPostAPI {
  PostStatus : World -> option activation.PostStatus * option Err;
  CreatePostData : activation.PostOptions -> M World (option Err);
  StopPostDataCreationSession : bool -> M World (option Err)
}.

End Interfaces.

Arguments mkSyncer {World} _.
Arguments Start {World} _ _.
Arguments mkSmeshingAPI {World Err Address} _ _ _ _ _.
Arguments Smeshing {World Err Address} _ _.
Arguments StopSmeshing {World Err Address} _ _.
Arguments SmesherID {World Err Address} _ _.
Arguments Coinbase {World Err Address} _ _.
Arguments SetCoinbase {World Err Address} _ _ _.
Arguments mkPostAPI {World Err} _ _ _.
Arguments PostStatus {World Err} _ _.
Arguments CreatePostData {World Err} _ _ _.
Arguments StopPostDataCreationSession {World Err} _ _ _.

End api_rest.

Module pb_rest.

Record VersionResponse : Type := mkVersionResponse {
  VersionString : option pb.SimpleString
}.

Record BuildResponse : Type := mkBuildResponse {
  BuildString : option pb.SimpleString
}.

Record SyncStartResponse : Type := mkSyncStartResponse {
  SyncStartResponse_Status : option rpcstatus.Status
}.

Record ShutdownResponse : Type := mkShutdownResponse {
  ShutdownResponse_Status : option rpcstatus.Status
}.

Record IsSmeshingResponse : Type := mkIsSmeshingResponse { IsSmeshing : bool }.

Record StopSmeshingResponse : Type := mkStopSmeshingResponse {
  StopSmeshingResponse_Status : option rpcstatus.Status
}.

Record SmesherIDResponse : Type := mkSmesherIDResponse {
  SmesherIDResponse_AccountId : option pb.AccountId
}.

Record CoinbaseResponse : Type := mkCoinbaseResponse {
  CoinbaseResponse_AccountId : option pb.AccountId
}.

Record SetCoinbaseRequest : Type := mkSetCoinbaseRequest {
  Id : option pb.AccountId
}.

Record SetCoinbaseResponse : Type := mkSetCoinbaseResponse {
  SetCoinbaseResponse_Status : option rpcstatus.Status
}.

Record PostStatusResponse : Type := mkPostStatusResponse {
  PostStatusResponse_Status : option pb.PostStatus
}.

Record CreatePostDataRequest : Type := mkCreatePostDataRequest {
  Data : option pb.PostData
}.

Record CreatePostDataResponse : Type := mkCreatePostDataResponse {
  CreatePostDataResponse_Status : option rpcstatus.Status
}.

Record StopPostDataCreationSessionRequest : Type :=
  mkStopPostDataCreationSessionRequest { DeleteFiles : bool }.

Record StopPostDataCreationSessionResponse : Type :=
  mkStopPostDataCreationSessionResponse {
    StopPostDataCreationSessionResponse_Status : option rpcstatus.Status
  }.

End pb_rest.

Module grpcserver_rest.

Import runtime.

Local Open Scope string_scope.
Local Open Scope go_scope.

Section Services.

Variables World Err Address : Type.

(** The platform the node is built for. *)
Variable arch : platform.

(** [types.BytesToAddress], and the bytes of an address, [addr[:]]. *)
Variable BytesToAddress : list byte -> Address.
Variable Bytes : Address -> list byte.

(** [util.Hex2Bytes], of package [common/util]. *)
Variable Hex2Bytes : string -> list byte.

(** The variables [cmd.Version] and [cmd.Commit] of the build, and
    [cmd.Cancel], which asks the node to shut down. *)
Variables cmd_Version cmd_Commit : string.
Variable cmd_Cancel : M World unit.

(** The requests of which no field is read. *)
Variables SyncStartRequest ShutdownRequest StopSmeshingRequest : Type.

(** The status of a command that went well,
    [&rpcstatus.Status{Code: int32(code.Code_OK)}]. *)
Definition ok : option rpcstatus.Status :=
  Some {| rpcstatus.Code := int32 rpcstatus.Code_OK |}.

(** *** NodeService *)

(** The node service with the rest of its syncer. *)
Record NodeService : Type := mkNodeService {
  node : grpcserver.NodeService World;
  Syncer : api_rest.Syncer World
}.

(** [Version] returns the version of the node software as a semver string. *)
Definition Version (s : NodeService) (in_ : empty.Empty) : grpcserver.result Err pb_rest.VersionResponse :=
  (Some {| pb_rest.VersionString := Some {| pb.Value := cmd_Version |} |}, None).

(** [Build] returns the build of the node software. *)
Definition Build (s : NodeService) (in_ : empty.Empty) : grpcserver.result Err pb_rest.BuildResponse :=
  (Some {| pb_rest.BuildString := Some {| pb.Value := cmd_Commit |} |}, None).

(** [SyncStart] requests that the node start syncing the mesh (if it isn't
    already syncing). *)
Definition SyncStart (s : NodeService) (request : SyncStartRequest)
  : M World (grpcserver.result Err pb_rest.SyncStartResponse) :=
  _ <- api_rest.Start (Syncer s) ;;
  ret (Some {| pb_rest.SyncStartResponse_Status := ok |}, None).

(** [Shutdown] requests a graceful shutdown. *)
Definition Shutdown (s : NodeService) (request : ShutdownRequest)
  : M World (grpcserver.result Err pb_rest.ShutdownResponse) :=
  _ <- cmd_Cancel ;;
  ret (Some {| pb_rest.ShutdownResponse_Status := ok |}, None).

(** *** SmesherService *)

(** The smesher service with the rest of its two collaborators. *)
Record SmesherService : Type := mkSmesherService {
  smesher : grpcserver.SmesherService World Err Address;
  post : api_rest.PostAPI World Err;
  smeshing : api_rest.SmeshingAPI World Err Address
}.

(** [IsSmeshing] reports whether the node is smeshing. *)
Definition IsSmeshing (s : SmesherService) (in_ : empty.Empty)
  : M World (grpcserver.result Err pb_rest.IsSmeshingResponse) :=
  isSmeshing <- read (api_rest.Smeshing (smeshing s)) ;;
  ret (Some {| pb_rest.IsSmeshing := isSmeshing |}, None).

(** [StopSmeshing] requests that the node stop smeshing. *)
Definition StopSmeshing (s : SmesherService) (in_ : StopSmeshingRequest)
  : M World (grpcserver.result Err pb_rest.StopSmeshingResponse) :=
  err <- api_rest.StopSmeshing (smeshing s) ;;
  match err with
  | Some err => ret (None, Some (status.passed err))
  | None => ret (Some {| pb_rest.StopSmeshingResponse_Status := ok |}, None)
  end.

(** [SmesherID] returns the smesher ID of this node. *)
Definition SmesherID (s : SmesherService) (in_ : empty.Empty)
  : M World (grpcserver.result Err pb_rest.SmesherIDResponse) :=
  id <- read (api_rest.SmesherID (smeshing s)) ;;
  let addr := Hex2Bytes (api_rest.Key id) in
  ret (Some {| pb_rest.SmesherIDResponse_AccountId := Some {| pb.Address := addr |} |}, None).

(** [Coinbase] returns the current coinbase setting of this node. *)
Definition Coinbase (s : SmesherService) (in_ : empty.Empty)
  : M World (grpcserver.result Err pb_rest.CoinbaseResponse) :=
  addr <- read (api_rest.Coinbase (smeshing s)) ;;
  ret (Some {| pb_rest.CoinbaseResponse_AccountId := Some {| pb.Address := Bytes addr |} |},
       None).

(** [SetCoinbase] sets the current coinbase setting of this node. *)
Definition SetCoinbase (s : SmesherService) (in_ : pb_rest.SetCoinbaseRequest)
  : M World (grpcserver.result Err pb_rest.SetCoinbaseResponse) :=
  match pb_rest.Id in_ with
  | None => ret (None, Some (status.Errorf codes.InvalidArgument "`Id` must be provided"))
  | Some id =>
      let addr := BytesToAddress (pb.Address id) in
      _ <- api_rest.SetCoinbase (smeshing s) addr ;;
      ret (Some {| pb_rest.SetCoinbaseResponse_Status := ok |}, None)
  end.

(** [PostStatus] returns post data status. [statusToPbStatus] reads the
    fields of its argument: on a nil status it panics. *)
Definition PostStatus (s : SmesherService) (in_ : empty.Empty)
  : M World (outcome (grpcserver.result Err pb_rest.PostStatusResponse)) :=
  r <- read (api_rest.PostStatus (post s)) ;;
  match r with
  | (_, Some err) => ret (returns (None, Some (status.passed err)))
  | (Some status, None) =>
      ret (returns (Some {| pb_rest.PostStatusResponse_Status :=
                              Some (grpcserver.statusToPbStatus status) |}, None))
  | (None, None) => ret panics
  end.

(** [CreatePostData] requests that the node begin post init. The options
    are made of the fields of [in.Data]: when it is nil, reading them
    panics, before the call of the backend. *)
Definition CreatePostData (s : SmesherService) (in_ : pb_rest.CreatePostDataRequest)
  : M World (outcome (grpcserver.result Err pb_rest.CreatePostDataResponse)) :=
  match pb_rest.Data in_ with
  | None => ret panics
  | Some Data =>
      err <- api_rest.CreatePostData (post s)
               {| activation.DataDir := pb.Path Data;
                  activation.DataSize := pb.DataSize Data;
                  activation.Append := pb.Append Data;
                  activation.Throttle := pb.Throttle Data;
                  activation.ComputeProviderId := uint arch (pb.ProviderId Data) |} ;;
      match err with
      | Some err => ret (returns (None, Some (status.passed err)))
      | None =>
          ret (returns (Some {| pb_rest.CreatePostDataResponse_Status := ok |}, None))
      end
  end.

(** [StopPostDataCreationSession] requests that the node stop ongoing post
    data creation. *)
Definition StopPostDataCreationSession (s : SmesherService)
    (in_ : pb_rest.StopPostDataCreationSessionRequest)
  : M World (grpcserver.result Err pb_rest.StopPostDataCreationSessionResponse) :=
  err <- api_rest.StopPostDataCreationSession (post s) (pb_rest.DeleteFiles in_) ;;
  match err with
  | Some err => ret (None, Some (status.passed err))
  | None =>
      ret (Some {| pb_rest.StopPostDataCreationSessionResponse_Status := ok |}, None)
  end.

End Services.

Arguments mkNodeService {World} _ _.
Arguments node {World} _.
Arguments Syncer {World} _.
Arguments mkSmesherService {World Err Address} _ _ _.
Arguments smesher {World Err Address} _.
Arguments post {World Err Address} _.
Arguments smeshing {World Err Address} _.
Arguments Version {World Err} cmd_Version s in_.
Arguments Build {World Err} cmd_Commit s in_.
Arguments SyncStart {World Err SyncStartRequest} s request _.
Arguments Shutdown {World Err} cmd_Cancel {ShutdownRequest} s request _.
Arguments IsSmeshing {World Err Address} s in_ _.
Arguments StopSmeshing {World Err Address StopSmeshingRequest} s in_ _.
Arguments SmesherID {World Err Address} Hex2Bytes s in_ _.
Arguments Coinbase {World Err Address} Bytes s in_ _.
Arguments SetCoinbase {World Err Address} BytesToAddress s in_ _.
Arguments PostStatus {World Err Address} s in_ _.
Arguments CreatePostData {World Err Address} arch s in_ _.
Arguments StopPostDataCreationSession {World Err Address} s in_ _.

End grpcserver_rest.

(** The vocabulary of the properties of the rest of the services. *)
Module laws.

Import runtime.

Local Open Scope string_scope.

(** A unary endpoint answers with a response or with an error, never with
    both and never with neither. *)
Definition exclusive {Err Resp : Type} (r : grpcserver.result Err Resp) : bool :=
  match r with
  | (Some _, None) => true
  | (None, Some _) => true
  | _ => false
  end.

(** The same of an endpoint that returned; a panic answers nothing. *)
Definition exclusive_if_returned {Err Resp : Type}
    (o : outcome (grpcserver.result Err Resp)) : bool :=
  match o with
  | returns r => exclusive r
  | panics => true
  end.

(** The options [CreatePostData] makes of the data of a request. *)
Definition options (arch : platform) (d : pb.PostData) : activation.PostOptions :=
  {| activation.DataDir := pb.Path d;
     activation.DataSize := pb.DataSize d;
     activation.Append := pb.Append d;
     activation.Throttle := pb.Throttle d;
     activation.ComputeProviderId := uint arch (pb.ProviderId d) |}.

Section Backends.

Variables World Err Address : Type.

(** A smeshing backend that reports the coinbase it was last given. *)
Definition keepsCoinbase (smeshing : api_rest.SmeshingAPI World Err Address) : Prop :=
  forall (addr : Address) (w : World),
    api_rest.Coinbase smeshing (snd (api_rest.SetCoinbase smeshing addr w)) = addr.

(** A post backend that reports, in its status, the options of the data
    creation it last started. *)
Definition keepsOptions (post : api_rest.PostAPI World Err) : Prop :=
  forall (o : activation.PostOptions) (w w' : World),
    api_rest.CreatePostData post o w = (None, w') ->
    exists st,
      api_rest.PostStatus post w' = (Some st, None)
      /\ activation.LastOptions st = Some o.

End Backends.

Arguments keepsCoinbase {World Err Address} smeshing.
Arguments keepsOptions {World Err} post.

(** *** A node to run the rest of the smesher service on *)

(** Its state: the coinbase, and the options of the data creation going on,
    if one is. *)
Record rig : Type := mkRig {
  coinbase : list byte;
  session : option activation.PostOptions
}.

Definition rigPost : api_rest.PostAPI rig errors.errorString :=
  {| api_rest.PostStatus := fun w =>
       (Some {| activation.LastOptions := session w;
                activation.InitInProgress := match session w with Some _ => true | None => false end;
                activation.BytesWritten := 0;
                activation.ErrorType := 0;
                activation.ErrorMessage := "" |}, None);
     api_rest.CreatePostData := fun o w =>
       match session w with
       | Some _ => (Some (errors.New "already started"), w)
       | None => (None, {| coinbase := coinbase w; session := Some o |})
       end;
     api_rest.StopPostDataCreationSession := fun _ w =>
       match session w with
       | Some _ => (None, {| coinbase := coinbase w; session := None |})
       | None => (Some (errors.New "not started"), w)
       end |}.

Definition rigSmeshing : api_rest.SmeshingAPI rig errors.errorString (list byte) :=
  {| api_rest.Smeshing := fun _ => false;
     api_rest.StopSmeshing := fun w => (Some (errors.New "not started"), w);
     api_rest.SmesherID := fun _ => {| api_rest.Key := "00" |};
     api_rest.Coinbase := coinbase;
     api_rest.SetCoinbase := fun addr w => (tt, {| coinbase := addr; session := session w |}) |}.

Definition rigService : grpcserver_rest.SmesherService rig errors.errorString (list byte) :=
  {| grpcserver_rest.smesher :=
       {| grpcserver.post := api.mkPostAPI (fun _ => []) (fun _ => channel.mkChan [] true);
          grpcserver.smeshing := api.mkSmeshingAPI (fun _ w => (None, w)) |};
     grpcserver_rest.post := rigPost;
     grpcserver_rest.smeshing := rigSmeshing |}.

(** A request to create 4096 bytes in "/data" with the provider 2. *)
Definition someData : pb.PostData :=
  {| pb.Path := "/data"; pb.DataSize := 4096; pb.Append := false; pb.Throttle := true;
     pb.ProviderId := 2 |}.

End laws.

(** * Properties of [config.ParseServicesList] *)

Module config_spec.

Import config spec.

Local Open Scope string_scope.
Local Open Scope list_scope.

Lemma enable_nil (s : Config) : enable [] s = s.
Proof.
  destruct s; unfold enable, set_StartNodeService, set_StartMeshService; simpl.
  now rewrite !orb_false_r.
Qed.

Lemma enable_mesh (rest : list string) (s : Config) :
  enable rest (set_StartMeshService true s) = enable ("mesh" :: rest) s.
Proof.
  destruct s; unfold enable, set_StartNodeService, set_StartMeshService; simpl.
  now rewrite orb_true_r.
Qed.

Lemma enable_node (rest : list string) (s : Config) :
  enable rest (set_StartNodeService true s) = enable ("node" :: rest) s.
Proof.
  destruct s; unfold enable, set_StartNodeService, set_StartMeshService; simpl.
  now rewrite orb_true_r.
Qed.

(** The switch has three cases. *)
Lemma switch_cases (svc : string) :
  svc = "mesh" \/ svc = "node" \/ recognized svc = false.
Proof.
  unfold recognized.
  destruct (String.eqb_spec svc "mesh") as [->|_]; [now left|].
  destruct (String.eqb_spec svc "node") as [->|_]; [now right; left|].
  now right; right.
Qed.

(** The loop over a list of recognized names enables them all. *)
Lemma rangeServices_recognized (svcs : list string) :
  forallb recognized svcs = true ->
  forall s, rangeServices svcs s = (enable svcs s, None).
Proof.
  induction svcs as [|svc rest IH]; intros Hall s.
  - now rewrite enable_nil.
  - simpl in Hall. apply andb_prop in Hall as [Hsvc Hrest].
    destruct (switch_cases svc) as [->|[->|Hbad]]; simpl.
    + rewrite IH by assumption. now rewrite enable_mesh.
    + rewrite IH by assumption. now rewrite enable_node.
    + congruence.
Qed.

(** The loop stops at the first name that is not recognized, with the names
    before it enabled. *)
Lemma rangeServices_unrecognized (pre : list string) (bad : string) (post : list string) :
  forallb recognized pre = true ->
  recognized bad = false ->
  forall s, rangeServices (pre ++ bad :: post) s = (enable pre s, Some (UnknownService bad)).
Proof.
  intros Hpre Hbad.
  induction pre as [|svc rest IH]; intros s.
  - simpl. unfold recognized in Hbad. apply orb_false_elim in Hbad as [-> ->].
    now rewrite enable_nil.
  - simpl in Hpre. apply andb_prop in Hpre as [Hsvc Hrest].
    destruct (switch_cases svc) as [->|[->|Hno]]; simpl.
    + rewrite IH by assumption. now rewrite enable_mesh.
    + rewrite IH by assumption. now rewrite enable_node.
    + congruence.
Qed.

(** A list with a name that is not recognized splits at the first such name. *)
Lemma first_unrecognized (svcs : list string) (bad : string) :
  In bad svcs -> recognized bad = false ->
  exists pre first post,
    svcs = pre ++ first :: post /\ forallb recognized pre = true /\ recognized first = false.
Proof.
  induction svcs as [|svc rest IH]; intros Hin Hbad; [contradiction|].
  destruct (recognized svc) eqn:Hsvc.
  - destruct Hin as [->|Hin]; [congruence|].
    destruct (IH Hin Hbad) as (pre & first & post & -> & Hpre & Hfirst).
    exists (svc :: pre), first, post. simpl. now rewrite Hsvc, Hpre.
  - now exists [], svc, rest.
Qed.

(** X1: on a list of recognized names, [ParseServicesList] enables them
    all, and fails, with the missing-dependency error, exactly when the
    secondary gateway is requested and the node service is neither enabled
    already nor requested: the dependency is looked for in the node service
    alone. *)
Lemma ParseServicesList_recognized (s : Config) :
  forallb recognized (StartGrpcServices s) = true ->
  ParseServicesList s =
    (enable (StartGrpcServices s) s,
     if StartNewJSONServer s
        && negb (StartNodeService s || requested "node" (StartGrpcServices s))
     then Some MissingDependency else None).
Proof.
  intros Hall. unfold ParseServicesList.
  rewrite rangeServices_recognized by assumption.
  destruct s as [? svcs ? ? ? gateway ? ? node mesh]; simpl.
  now destruct (gateway && negb (node || requested "node" svcs)).
Qed.

Lemma ParseServicesList_recognized_witness :
  ParseServicesList (requesting ["node"; "mesh"] true)
  = (enable ["node"; "mesh"] (requesting ["node"; "mesh"] true), None).
Proof.
  apply (ParseServicesList_recognized (requesting ["node"; "mesh"] true)).
  reflexivity.
Defined.

(** C1, as the code has it: for every requested list with a name that is not
    recognized, [ParseServicesList] fails with the unknown-service error that
    names the first such name of the list; the configuration it leaves has
    the services named before that name enabled, and is otherwise as it was. *)
Theorem ParseServicesList_unknown_service (s : Config) (bad : string) :
  In bad (StartGrpcServices s) ->
  recognized bad = false ->
  exists pre first post,
    StartGrpcServices s = pre ++ first :: post
    /\ forallb recognized pre = true
    /\ recognized first = false
    /\ ParseServicesList s = (enable pre s, Some (UnknownService first)).
Proof.
  intros Hin Hbad.
  destruct (first_unrecognized _ _ Hin Hbad) as (pre & first & post & Hsplit & Hpre & Hfirst).
  exists pre, first, post. repeat split; try assumption.
  unfold ParseServicesList. rewrite Hsplit.
  now rewrite rangeServices_unrecognized.
Qed.

Lemma ParseServicesList_unknown_service_witness :
  exists pre first post,
    StartGrpcServices (requesting ["mesh"; "p2p"; "node"; "gateway"] false)
      = pre ++ first :: post
    /\ forallb recognized pre = true
    /\ recognized first = false
    /\ ParseServicesList (requesting ["mesh"; "p2p"; "node"; "gateway"] false)
       = (enable pre (requesting ["mesh"; "p2p"; "node"; "gateway"] false),
          Some (UnknownService first)).
Proof.
  apply (ParseServicesList_unknown_service
           (requesting ["mesh"; "p2p"; "node"; "gateway"] false) "gateway").
  - simpl. tauto.
  - reflexivity.
Defined.

(** C1, as it is stated, fails: on the list "mesh", "p2p" the call fails for
    "p2p" and has set [StartMeshService], which was false, for the name
    before it. *)
Lemma ParseServicesList_applies_partially :
  In "p2p" (StartGrpcServices (requesting ["mesh"; "p2p"] false))
  /\ recognized "p2p" = false
  /\ snd (ParseServicesList (requesting ["mesh"; "p2p"] false)) = Some (UnknownService "p2p")
  /\ StartMeshService (requesting ["mesh"; "p2p"] false) = false
  /\ StartMeshService (fst (ParseServicesList (requesting ["mesh"; "p2p"] false))) = true
  /\ fst (ParseServicesList (requesting ["mesh"; "p2p"] false)) <> requesting ["mesh"; "p2p"] false.
Proof.
  repeat split; try reflexivity.
  - simpl. tauto.
  - intros Heq. apply (f_equal StartMeshService) in Heq. discriminate Heq.
Qed.

(** C2, at the input where the code departs from it: the secondary gateway
    is requested together with the mesh service, a recognized service that
    the call enables, and the call fails with the missing-dependency error.
    With the node service in its place the call succeeds, and with no
    service it fails, as the claim says. *)
Theorem ParseServicesList_gateway_with_mesh :
  StartNewJSONServer (requesting ["mesh"] true) = true
  /\ StartGrpcServices (requesting ["mesh"] true) = ["mesh"]
  /\ recognized "mesh" = true
  /\ StartMeshService (fst (ParseServicesList (requesting ["mesh"] true))) = true
  /\ snd (ParseServicesList (requesting ["mesh"] true)) = Some MissingDependency
  /\ snd (ParseServicesList (requesting ["node"] true)) = None
  /\ snd (ParseServicesList (requesting [] true)) = Some MissingDependency.
Proof. repeat split. Qed.

(** C10: for every configuration, [ParseServicesList] leaves the server
    flags, the four ports and the list of requested services as they were,
    whether it fails or not, and may only raise [StartMeshService] and
    [StartNodeService] from false to true. *)
Theorem ParseServicesList_frame (s : Config) :
  StartGrpcServer (fst (ParseServicesList s)) = StartGrpcServer s
  /\ StartGrpcServices (fst (ParseServicesList s)) = StartGrpcServices s
  /\ GrpcServerPort (fst (ParseServicesList s)) = GrpcServerPort s
  /\ NewGrpcServerPort (fst (ParseServicesList s)) = NewGrpcServerPort s
  /\ StartJSONServer (fst (ParseServicesList s)) = StartJSONServer s
  /\ StartNewJSONServer (fst (ParseServicesList s)) = StartNewJSONServer s
  /\ JSONServerPort (fst (ParseServicesList s)) = JSONServerPort s
  /\ NewJSONServerPort (fst (ParseServicesList s)) = NewJSONServerPort s
  /\ raised (StartNodeService s) (StartNodeService (fst (ParseServicesList s)))
  /\ raised (StartMeshService s) (StartMeshService (fst (ParseServicesList s))).
Proof.
  assert (Hloop : forall svcs s0, exists pre, fst (rangeServices svcs s0) = enable pre s0).
  { induction svcs as [|svc rest IH]; intros s0.
    - exists []. now rewrite enable_nil.
    - destruct (switch_cases svc) as [->|[->|Hbad]]; simpl.
      + destruct (IH (set_StartMeshService true s0)) as [pre ->].
        exists ("mesh" :: pre). apply enable_mesh.
      + destruct (IH (set_StartNodeService true s0)) as [pre ->].
        exists ("node" :: pre). apply enable_node.
      + unfold recognized in Hbad. apply orb_false_elim in Hbad as [-> ->].
        exists []. now rewrite enable_nil. }
  assert (Hfst : fst (ParseServicesList s) = fst (rangeServices (StartGrpcServices s) s)).
  { unfold ParseServicesList.
    destruct (rangeServices (StartGrpcServices s) s) as [s' [err|]]; [reflexivity|].
    now destruct (StartNewJSONServer s' && negb (StartNodeService s')). }
  rewrite Hfst. destruct (Hloop (StartGrpcServices s) s) as [pre ->].
  unfold raised. destruct s as [? ? ? ? ? ? ? ? node mesh]; simpl.
  repeat split; try reflexivity.
  - destruct node, (requested "node" pre); simpl; auto.
  - destruct mesh, (requested "mesh" pre); simpl; auto.
Qed.

End config_spec.

(** * Properties of the node service *)

Module node_service_spec.

Import grpcserver spec.

Local Open Scope string_scope.
Local Open Scope list_scope.

Section NodeService.

Variables World Err : Type.
Variables StatusStreamRequest StatusStreamResponse : Type.
Variables ErrorStreamRequest ErrorStreamResponse : Type.

(** The response of [Echo] is nil exactly when its error is not. *)
Lemma Echo_result (s : NodeService World) (in_ : pb.EchoRequest) :
  (exists resp, Echo (Err:=Err) s in_ = (Some resp, None))
  \/ (exists err, Echo (Err:=Err) s in_ = (None, Some err)).
Proof.
  unfold Echo. destruct (pb.EchoRequest_Msg in_) as [msg|].
  - left. eexists. reflexivity.
  - right. eexists. reflexivity.
Qed.

(** C4: an [Echo] request with a message succeeds with a response whose
    message has the value of the request's; a request without one fails with
    InvalidArgument and no response; and the call fails exactly when the
    message is absent. *)
Theorem Echo_payload (s : NodeService World) (in_ : pb.EchoRequest) :
  (forall msg, pb.EchoRequest_Msg in_ = Some msg ->
     Echo (Err:=Err) s in_
     = (Some {| pb.EchoResponse_Msg := Some {| pb.Value := pb.Value msg |} |}, None))
  /\ (pb.EchoRequest_Msg in_ = None ->
      Echo (Err:=Err) s in_ = (None, Some (InvalidArgument "Must include `Msg`")))
  /\ (snd (Echo (Err:=Err) s in_) <> None <-> pb.EchoRequest_Msg in_ = None).
Proof.
  unfold Echo. destruct (pb.EchoRequest_Msg in_) as [msg|] eqn:Hmsg.
  - split; [|split].
    + intros msg' [= <-]. reflexivity.
    + discriminate.
    + split; [intros Herr; now contradict Herr | discriminate].
  - split; [|split].
    + discriminate.
    + reflexivity.
    + split; [reflexivity | discriminate].
Qed.

(** C3: [Status] answers every request, in every state of the node, with no
    error and with a status whose five fields are the values its five
    collaborators give in that state; it changes nothing. *)
Theorem Status_snapshot (s : NodeService World) (request : pb.StatusRequest) (w : World) :
  exists resp st,
    Status (Err:=Err) s request w = ((Some resp, None), w)
    /\ pb.StatusResponse_Status resp = Some st
    /\ pb.ConnectedPeers st = api.PeerCount (PeerCounter s) w
    /\ pb.IsSynced st = api.IsSynced (Syncer s) w
    /\ pb.SyncedLayer st = types.Uint64 (api.LatestLayer (Tx s) w)
    /\ pb.TopLayer st = types.Uint64 (api.GetCurrentLayer (GenTime s) w)
    /\ pb.VerifiedLayer st = types.Uint64 (api.LatestLayerInState (Tx s) w).
Proof.
  eexists. eexists. split.
  - unfold Status, bind, read, ret. reflexivity.
  - repeat split.
Qed.

(** C9: [StatusStream] and [ErrorStream] return at once with no error and
    leave the state, the client's end of the stream included, as it was: on
    a client that records what it is sent, nothing is recorded. *)
Theorem stub_streams (s : NodeService World) :
  (forall (request : StatusStreamRequest)
          (stream : pb.ServerStream World Err StatusStreamResponse) (w : World),
     StatusStream s request stream w = (None, w))
  /\ (forall (request : ErrorStreamRequest)
             (stream : pb.ServerStream World Err ErrorStreamResponse) (w : World),
        ErrorStream s request stream w = (None, w))
  /\ (forall (s' : NodeService (list StatusStreamResponse)) (request : StatusStreamRequest)
             (k : nat),
        StatusStream s' request (client k) [] = (None, []))
  /\ (forall (s' : NodeService (list ErrorStreamResponse)) (request : ErrorStreamRequest)
             (k : nat),
        ErrorStream s' request (client k) [] = (None, [])).
Proof.
  repeat split.
Qed.

End NodeService.

Lemma Echo_payload_witness :
  Echo (Err:=errors.errorString) nodeService
    {| pb.EchoRequest_Msg := Some {| pb.Value := "ping" |} |}
  = (Some {| pb.EchoResponse_Msg := Some {| pb.Value := "ping" |} |}, None)
  /\ Echo (Err:=errors.errorString) nodeService {| pb.EchoRequest_Msg := None |}
     = (None, Some (InvalidArgument "Must include `Msg`")).
Proof.
  split.
  - apply (proj1 (Echo_payload node errors.errorString nodeService
                    {| pb.EchoRequest_Msg := Some {| pb.Value := "ping" |} |})
                 {| pb.Value := "ping" |}).
    reflexivity.
  - apply (proj1 (proj2 (Echo_payload node errors.errorString nodeService
                           {| pb.EchoRequest_Msg := None |}))).
    reflexivity.
Defined.

(** The status of the specification's end-to-end case. *)
Example Status_of_node :
  Status (Err:=errors.errorString) nodeService pb.mkStatusRequest
    {| peers := 3; synced := true; latest := 100; verified := 98; current := 101 |}
  = ((Some {| pb.StatusResponse_Status := Some
                {| pb.ConnectedPeers := 3; pb.IsSynced := true; pb.SyncedLayer := 100;
                   pb.TopLayer := 101; pb.VerifiedLayer := 98 |} |}, None),
     {| peers := 3; synced := true; latest := 100; verified := 98; current := 101 |}).
Proof. reflexivity. Qed.

End node_service_spec.

(** * Properties of the smesher service *)

Module smesher_service_spec.

Import grpcserver spec.

Local Open Scope string_scope.
Local Open Scope list_scope.

Section SmesherService.

Variables World Err Address : Type.
Context `{!error Err}.
Variable BytesToAddress : list byte -> Address.
Variable Benchmark : activation.PostComputeProvider -> M World (Z * option Err).
Variables MinGasResponse SetMinGasRequest SetMinGasResponse : Type.

Implicit Types (s : SmesherService World Err Address) (w : World).

(** C6: a [StartSmeshing] request without a coinbase fails with
    InvalidArgument and leaves the state of the node as it was, whatever the
    backend would have done; with a coinbase, the backend is started for its
    address, and its error comes back as an Internal error with the same
    message, its success as an OK status. *)
Theorem StartSmeshing_outcomes s (in_ : pb.StartSmeshingRequest) w :
  (pb.Coinbase in_ = None ->
     StartSmeshing BytesToAddress s in_ w
     = ((None, Some (InvalidArgument "`Coinbase` must be provided")), w))
  /\ (forall coinbase err w',
        pb.Coinbase in_ = Some coinbase ->
        api.StartSmeshing (smeshing s) (BytesToAddress (pb.Address coinbase)) w
          = (Some err, w') ->
        StartSmeshing BytesToAddress s in_ w = ((None, Some (Internal (Error err))), w'))
  /\ (forall coinbase w',
        pb.Coinbase in_ = Some coinbase ->
        api.StartSmeshing (smeshing s) (BytesToAddress (pb.Address coinbase)) w
          = (None, w') ->
        StartSmeshing BytesToAddress s in_ w
        = ((Some {| pb.StartSmeshingResponse_Status := statusOK |}, None), w')).
Proof.
  unfold StartSmeshing. split; [|split].
  - intros ->. reflexivity.
  - intros coinbase err w' -> Hcall. unfold bind. rewrite Hcall. reflexivity.
  - intros coinbase w' -> Hcall. unfold bind. rewrite Hcall. reflexivity.
Qed.

(** C7: [MinGas] and [SetMinGas] answer every request with no response and
    the Unimplemented error. *)
Theorem MinGas_unimplemented s :
  (forall in_ : empty.Empty,
     MinGas (MinGasResponse:=MinGasResponse) s in_
     = (None, Some (Unimplemented "this endpoint is not implemented")))
  /\ (forall in_ : SetMinGasRequest,
        SetMinGas (SetMinGasResponse:=SetMinGasResponse) s in_
        = (None, Some (Unimplemented "this endpoint is not implemented"))).
Proof.
  split; intros in_; reflexivity.
Qed.

(** *** The loop over the providers *)

Lemma benchmarked_length w w' ps hss :
  benchmarked Benchmark w ps hss w' -> length hss = length ps.
Proof.
  induction 1 as [|w0 w1 w2 p hs ps hss _ _ IH]; simpl; congruence.
Qed.

(** Filling the first free slot of the slice. *)
Lemma fill_slot {A : Type} (filled : list (option A)) (x : option A) (n : nat) :
  <[ length filled := x ]> (filled ++ None :: replicate n None)
  = (filled ++ [x]) ++ replicate n None.
Proof.
  rewrite insert_app_r_alt by reflexivity.
  rewrite Nat.sub_diag. simpl. now rewrite <- app_assoc.
Qed.

(** The loop, entered at the index of the first free slot, when the
    benchmarks of the providers left all succeed: every slot is filled, in
    the order of the providers. *)
Lemma rangeProviders_benchmarked w w' ps hss :
  benchmarked Benchmark w ps hss w' ->
  forall filled : list (option pb.PostComputeProvider),
    rangeProviders Benchmark (length filled) ps
      (filled ++ replicate (length ps) None) w
    = (inl (filled ++ map Some (zip_with entry ps hss)), w').
Proof.
  induction 1 as [w0|w0 w1 w2 p hs ps hss Hbench _ IH]; intros filled.
  - reflexivity.
  - simpl. unfold bind at 1. rewrite Hbench.
    change (Some {| pb.Id := uint32 (activation.Id p);
                    pb.Model := activation.Model p;
                    pb.ComputeApi := int32 (activation.ComputeAPI p);
                    pb.Performance := uint64 hs |})
      with (Some (entry p hs)).
    rewrite fill_slot.
    replace (S (length filled)) with (length (filled ++ [Some (entry p hs)]))
      by (rewrite length_app; simpl; lia).
    rewrite IH. now rewrite <- app_assoc.
Qed.

(** The loop returns the error of the first benchmark that fails, whatever
    it had filled, and runs no benchmark after it. *)
Lemma rangeProviders_failed w w1 w2 pre hss p hs err rest :
  benchmarked Benchmark w pre hss w1 ->
  Benchmark p w1 = ((hs, Some err), w2) ->
  forall (i : nat) (res : list (option pb.PostComputeProvider)),
    rangeProviders Benchmark i (pre ++ p :: rest) res w = (inr err, w2).
Proof.
  intros Hpre Hfail.
  induction Hpre as [w0|w0 w1 w3 q hq ps hss Hbench _ IH]; intros i res.
  - simpl. unfold bind. now rewrite Hfail.
  - simpl. unfold bind at 1. rewrite Hbench. apply IH, Hfail.
Qed.

(** Every run of the benchmarks ends in one of the two ways. *)
Lemma benchmarks_outcome (ps : list activation.PostComputeProvider) w :
  (exists hss w', benchmarked Benchmark w ps hss w')
  \/ (exists pre p rest hss w1 hs err w2,
        ps = pre ++ p :: rest
        /\ benchmarked Benchmark w pre hss w1
        /\ Benchmark p w1 = ((hs, Some err), w2)).
Proof.
  revert w. induction ps as [|p ps IH]; intros w.
  - left. exists [], w. constructor.
  - destruct (Benchmark p w) as [[hs [err|]] w1] eqn:Hbench.
    + right. exists [], p, ps, [], w, hs, err, w1.
      repeat split; [constructor | assumption].
    + destruct (IH w1) as [(hss & w' & Hall)|
                           (pre & q & rest & hss & w2 & hq & err & w3 & -> & Hpre & Hfail)].
      * left. exists (hs :: hss), w'. econstructor; eassumption.
      * right. exists (p :: pre), q, rest, (hs :: hss), w2, hq, err, w3.
        repeat split; [econstructor; eassumption | assumption].
Qed.

(** The entry at an index of the response is made of the provider and of the
    throughput at that index. *)
Lemma lookup_entries {A B C : Type} (f : A -> B -> C) (ps : list A) (hss : list B) :
  forall (i : nat) (p : A) (hs : B),
    ps !! i = Some p -> hss !! i = Some hs ->
    map Some (zip_with f ps hss) !! i = Some (Some (f p hs)).
Proof.
  revert hss. induction ps as [|q ps IH]; intros [|hq hss] [|i] p hs Hp Hhs;
    try discriminate.
  - simpl in *. congruence.
  - simpl in *. now apply IH.
Qed.

(** C5: when the benchmark of a provider of the backend's list fails, the
    ones before it having succeeded, [PostComputeProviders] returns that
    failure and no response; when the benchmarks all succeed, it returns one
    entry for each provider, in the order of the list: the provider's model,
    its id and compute API class and the throughput measured for it, each
    converted to the width of its field, which leaves every value that fits
    the field as it is. *)
Theorem PostComputeProviders_all_or_nothing s (in_ : empty.Empty) w :
  (forall pre p rest hss w1 hs err w2,
     api.PostComputeProviders (post s) w = pre ++ p :: rest ->
     benchmarked Benchmark w pre hss w1 ->
     Benchmark p w1 = ((hs, Some err), w2) ->
     PostComputeProviders Benchmark s in_ w = ((None, Some (status.passed err)), w2))
  /\ (forall hss w',
        benchmarked Benchmark w (api.PostComputeProviders (post s) w) hss w' ->
        exists resp,
          PostComputeProviders Benchmark s in_ w = ((Some resp, None), w')
          /\ length hss = length (api.PostComputeProviders (post s) w)
          /\ length (pb.PostComputeProvidersResponse_PostComputeProvider resp)
             = length (api.PostComputeProviders (post s) w)
          /\ pb.PostComputeProvidersResponse_PostComputeProvider resp
             = map Some
                 (zip_with
                    (fun p hs =>
                       {| pb.Id := activation.Id p mod 2 ^ 32;
                          pb.Model := activation.Model p;
                          pb.ComputeApi := (activation.ComputeAPI p + 2 ^ 31) mod 2 ^ 32 - 2 ^ 31;
                          pb.Performance := hs mod 2 ^ 64 |})
                    (api.PostComputeProviders (post s) w) hss)
          /\ (forall (i : nat) p,
                api.PostComputeProviders (post s) w !! i = Some p ->
                exists hs,
                  hss !! i = Some hs
                  /\ (0 <= activation.Id p < 2 ^ 32 ->
                      - 2 ^ 31 <= activation.ComputeAPI p < 2 ^ 31 ->
                      0 <= hs < 2 ^ 64 ->
                      pb.PostComputeProvidersResponse_PostComputeProvider resp !! i
                      = Some (Some {| pb.Id := activation.Id p;
                                      pb.Model := activation.Model p;
                                      pb.ComputeApi := activation.ComputeAPI p;
                                      pb.Performance := hs |})))).
Proof.
  unfold PostComputeProviders. split.
  - intros pre p rest hss w1 hs err w2 Hlist Hpre Hfail.
    unfold bind at 1, read. rewrite Hlist. unfold bind.
    now rewrite (rangeProviders_failed _ _ _ _ _ _ _ _ _ Hpre Hfail).
  - intros hss w' Hall.
    pose proof (benchmarked_length _ _ _ _ Hall) as Hlen.
    pose proof (rangeProviders_benchmarked _ _ _ _ Hall []) as Hrun. simpl in Hrun.
    eexists. split; [|split; [|split; [|split]]].
    + unfold bind at 1, read. unfold bind. rewrite Hrun. reflexivity.
    + exact Hlen.
    + simpl. rewrite length_map, length_zip_with. lia.
    + reflexivity.
    + intros i p Hp.
      destruct (lookup_lt_is_Some_2 hss i) as [hs Hhs].
      { rewrite Hlen. eapply lookup_lt_Some, Hp. }
      exists hs. split; [assumption|]. intros Hid Hapi Hfit. simpl.
      rewrite (lookup_entries entry _ _ i p hs Hp Hhs). do 2 f_equal.
      unfold entry, uint32, int32, uint64.
      rewrite (Z.mod_small (activation.Id p)) by assumption.
      rewrite (Z.mod_small hs) by assumption.
      rewrite (Z.mod_small (activation.ComputeAPI p + 2 ^ 31)) by lia.
      f_equal. lia.
Qed.

(** *** The loop over the progress events *)

Section Stream.

Variable stream : pb.ServerStream World Err pb.PostDataCreationProgressStreamResponse.

(** The loop sends the events the client accepts, in order; after the last
    one it ends with no error when the channel is closed, and blocks when it
    is not. *)
Lemma rangeProgress_delivered w w' es (closed : bool) :
  delivered stream w es w' ->
  rangeProgress stream (map Some es) closed w
  = (if closed then channel.returns None else channel.blocks, w').
Proof.
  induction 1 as [w0|w0 w1 w2 e es Hsend _ IH].
  - reflexivity.
  - simpl. unfold bind. fold (progress e). now rewrite Hsend.
Qed.

(** The loop returns the error of the first send that fails, and sends
    nothing after it, whatever the channel holds after that event. *)
Lemma rangeProgress_failed w w1 w2 pre e err rest (closed : bool) :
  delivered stream w pre w1 ->
  pb.Send stream (progress e) w1 = (Some err, w2) ->
  rangeProgress stream (map Some pre ++ Some e :: rest) closed w
  = (channel.returns (Some (status.passed err)), w2).
Proof.
  intros Hpre Hfail.
  induction Hpre as [w0|w0 w1 w3 e0 es Hsend _ IH].
  - simpl. unfold bind. fold (progress e). now rewrite Hfail.
  - simpl. unfold bind at 1. fold (progress e0). rewrite Hsend. apply IH, Hfail.
Qed.

(** The loop panics at a nil event, the events before it sent. *)
Lemma rangeProgress_nil w w1 pre rest (closed : bool) :
  delivered stream w pre w1 ->
  rangeProgress stream (map Some pre ++ None :: rest) closed w = (channel.panics, w1).
Proof.
  induction 1 as [w0|w0 w1 w2 e es Hsend _ IH].
  - reflexivity.
  - simpl. unfold bind at 1. fold (progress e). now rewrite Hsend.
Qed.

(** Every run of the sends ends in one of the two ways. *)
Lemma sends_outcome (es : list activation.PostStatus) w :
  (exists w', delivered stream w es w')
  \/ (exists pre e rest w1 err w2,
        es = pre ++ e :: rest
        /\ delivered stream w pre w1
        /\ pb.Send stream (progress e) w1 = (Some err, w2)).
Proof.
  revert w. induction es as [|e es IH]; intros w.
  - left. exists w. constructor.
  - destruct (pb.Send stream (progress e) w) as [[err|] w1] eqn:Hsend.
    + right. exists [], e, es, w, err, w1. repeat split; [constructor | assumption].
    + destruct (IH w1) as [(w' & Hall)|
                           (pre & e' & rest & w2 & err & w3 & -> & Hpre & Hfail)].
      * left. exists w'. econstructor; eassumption.
      * right. exists (e :: pre), e', rest, w2, err, w3.
        repeat split; [econstructor; eassumption | assumption].
Qed.

(** C8: [PostDataCreationProgressStream] sends one message for each event
    that the backend's channel delivers, in the order of the events, and
    returns no error when the channel is closed after them and the client
    accepted them all; at the first send that fails it returns that error,
    having sent none of the events after it. The message of an event has
    the event's bytes written, error message and in-progress flag, and its
    error kind converted to the 32 bits of the message's enum, which leaves
    every kind that fits as it is. *)
Theorem PostDataCreationProgressStream_delivery s (request : empty.Empty) w :
  (forall es w',
     api.PostDataCreationProgressStream (post s) w = channel.mkChan (map Some es) true ->
     delivered stream w es w' ->
     PostDataCreationProgressStream s request stream w = (channel.returns None, w'))
  /\ (forall pre e rest w1 err w2,
        channel.values (api.PostDataCreationProgressStream (post s) w)
        = map Some pre ++ Some e :: rest ->
        delivered stream w pre w1 ->
        pb.Send stream (progress e) w1 = (Some err, w2) ->
        PostDataCreationProgressStream s request stream w
        = (channel.returns (Some (status.passed err)), w2))
  /\ (forall e, exists st,
        pb.PostDataCreationProgressStreamResponse_Status (progress e) = Some st
        /\ pb.BytesWritten st = activation.BytesWritten e
        /\ pb.ErrorType st = (activation.ErrorType e + 2 ^ 31) mod 2 ^ 32 - 2 ^ 31
        /\ (- 2 ^ 31 <= activation.ErrorType e < 2 ^ 31 ->
            pb.ErrorType st = activation.ErrorType e)
        /\ pb.ErrorMessage st = activation.ErrorMessage e
        /\ pb.InitInProgress st = activation.InitInProgress e).
Proof.
  unfold PostDataCreationProgressStream, bind, read. split; [|split].
  - intros es w' -> Hall. simpl.
    now rewrite (rangeProgress_delivered _ _ _ true Hall).
  - intros pre e rest w1 err w2 -> Hpre Hfail.
    eapply rangeProgress_failed; eassumption.
  - intros e. eexists. split; [reflexivity|]. simpl. unfold int32.
    repeat split.
    intros Hkind. rewrite Z.mod_small by lia. lia.
Qed.

End Stream.

End SmesherService.

(** The entry carries the provider's values as they are when they fit the
    fields of the message. *)
Lemma entry_exact (p : activation.PostComputeProvider) (hs : Z) :
  0 <= activation.Id p < 2 ^ 32 ->
  - 2 ^ 31 <= activation.ComputeAPI p < 2 ^ 31 ->
  0 <= hs < 2 ^ 64 ->
  entry p hs = {| pb.Id := activation.Id p;
                  pb.Model := activation.Model p;
                  pb.ComputeApi := activation.ComputeAPI p;
                  pb.Performance := hs |}.
Proof.
  intros Hid Hapi Hhs. unfold entry, uint32, int32, uint64.
  rewrite (Z.mod_small (activation.Id p)) by assumption.
  rewrite (Z.mod_small hs) by assumption.
  rewrite (Z.mod_small (activation.ComputeAPI p + 2 ^ 31)) by lia.
  f_equal. lia.
Qed.

(** The message carries the event's error kind as it is when it fits the
    field of the message. *)
Lemma progress_error_kind_exact (e : activation.PostStatus) :
  - 2 ^ 31 <= activation.ErrorType e < 2 ^ 31 ->
  pb.ErrorType (statusToPbStatus e) = activation.ErrorType e.
Proof.
  intros Hkind. simpl. unfold int32.
  rewrite Z.mod_small by lia. lia.
Qed.

(** On the client that takes [k] messages, the loop delivers the first [k]
    events, and fails when there are more. *)
Lemma rangeProgress_client (k : nat) (events : list activation.PostStatus) :
  forall inbox : list pb.PostDataCreationProgressStreamResponse,
    rangeProgress (client k) (map Some events) true inbox
    = (channel.returns
         (if (length events <=? k - length inbox)%nat then None
          else Some (status.passed (errors.New "transport is closing"))),
       inbox ++ map progress (take (k - length inbox) events)).
Proof.
  induction events as [|e es IH]; intros inbox.
  - simpl. now rewrite take_nil, app_nil_r.
  - simpl. unfold bind. fold (progress e). simpl.
    destruct (Nat.ltb_spec (length inbox) k) as [Hlt|Hge].
    + rewrite IH, length_app. simpl.
      replace (k - length inbox)%nat with (S (k - (length inbox + 1)))%nat by lia.
      simpl. now rewrite <- app_assoc.
    + replace (k - length inbox)%nat with 0%nat by lia.
      simpl. now rewrite app_nil_r.
Qed.

(** X2: on the client that takes [k] messages,
    [PostDataCreationProgressStream] delivers the first [k] events of the
    source, one message each and in their order, and returns the client's
    error when the source had more. *)
Lemma PostDataCreationProgressStream_client (k : nat) (events : list activation.PostStatus) :
  PostDataCreationProgressStream (progressService events) empty.mkEmpty (client k) []
  = (channel.returns
       (if (length events <=? k)%nat then None
        else Some (status.passed (errors.New "transport is closing"))),
     map progress (take k events)).
Proof.
  unfold PostDataCreationProgressStream, bind, read. simpl.
  rewrite rangeProgress_client. simpl. now rewrite Nat.sub_0_r.
Qed.

Lemma StartSmeshing_outcomes_witness :
  StartSmeshing (fun b => b) smesher {| pb.Coinbase := None |} None
  = ((None, Some (InvalidArgument "`Coinbase` must be provided")), None)
  /\ StartSmeshing (fun b => b) smesher
       {| pb.Coinbase := Some {| pb.Address := [x01] |} |} (Some [x02])
     = ((None, Some (Internal "already started")), Some [x02])
  /\ StartSmeshing (fun b => b) smesher
       {| pb.Coinbase := Some {| pb.Address := [x01] |} |} None
     = ((Some {| pb.StartSmeshingResponse_Status := statusOK |}, None), Some [x01]).
Proof.
  split; [|split].
  - apply (proj1 (StartSmeshing_outcomes (option (list byte)) errors.errorString (list byte)
                    (fun b => b) smesher {| pb.Coinbase := None |} None)).
    reflexivity.
  - exact (proj1 (proj2 (StartSmeshing_outcomes _ _ _ (fun b => b) smesher
                           {| pb.Coinbase := Some {| pb.Address := [x01] |} |}
                           (Some [x02])))
                 {| pb.Address := [x01] |} (errors.New "already started") (Some [x02])
                 eq_refl eq_refl).
  - apply (proj2 (proj2 (StartSmeshing_outcomes _ _ _ (fun b => b) smesher
                           {| pb.Coinbase := Some {| pb.Address := [x01] |} |} None))
                 {| pb.Address := [x01] |} (Some [x01]));
      reflexivity.
Defined.

Lemma PostComputeProviders_all_or_nothing_witness :
  PostComputeProviders benchmarkLog
    (computeService [provider 1 "cpu"; provider 2 "broken"; provider 3 "gpu"])
    empty.mkEmpty []
  = ((None, Some (status.passed (errors.New "benchmark failed"))), [1; 2])
  /\ PostComputeProviders benchmarkLog
       (computeService [provider 1 "cpu"; provider 3 "gpu"]) empty.mkEmpty []
     = ((Some {| pb.PostComputeProvidersResponse_PostComputeProvider :=
                   [Some {| pb.Id := 1; pb.Model := "cpu"; pb.ComputeApi := 1;
                            pb.Performance := 1000 |};
                    Some {| pb.Id := 3; pb.Model := "gpu"; pb.ComputeApi := 1;
                            pb.Performance := 3000 |}] |}, None),
        [1; 3]).
Proof.
  split.
  - apply (proj1 (PostComputeProviders_all_or_nothing (list Z) errors.errorString (list byte)
                    benchmarkLog
                    (computeService [provider 1 "cpu"; provider 2 "broken"; provider 3 "gpu"])
                    empty.mkEmpty [])
                 [provider 1 "cpu"] (provider 2 "broken") [provider 3 "gpu"]
                 [1000] [1] 0 (errors.New "benchmark failed") [1; 2]).
    + reflexivity.
    + econstructor; [reflexivity | constructor].
    + reflexivity.
  - assert (Hall : benchmarked benchmarkLog []
                     [provider 1 "cpu"; provider 3 "gpu"] [1000; 3000] [1; 3]).
    { econstructor; [reflexivity|]. econstructor; [reflexivity | constructor]. }
    destruct (proj2 (PostComputeProviders_all_or_nothing (list Z) errors.errorString
                       (list byte) benchmarkLog
                       (computeService [provider 1 "cpu"; provider 3 "gpu"])
                       empty.mkEmpty [])
                    [1000; 3000] [1; 3] Hall)
      as (resp & Hresp & _ & _ & Hentries & _).
    rewrite Hresp. destruct resp as [entries]. simpl in Hentries. rewrite Hentries.
    reflexivity.
Defined.

Lemma PostDataCreationProgressStream_delivery_witness :
  PostDataCreationProgressStream (progressService [writing 1024; writing 2048; writing 4096])
    empty.mkEmpty (client 5) []
  = (channel.returns None,
     [progress (writing 1024); progress (writing 2048); progress (writing 4096)])
  /\ PostDataCreationProgressStream
       (progressService [writing 1024; writing 2048; writing 4096])
       empty.mkEmpty (client 1) []
     = (channel.returns (Some (status.passed (errors.New "transport is closing"))),
        [progress (writing 1024)])
  /\ pb.PostDataCreationProgressStreamResponse_Status (progress (writing 1024))
     = Some {| pb.InitInProgress := true; pb.BytesWritten := 1024; pb.ErrorType := 0;
               pb.ErrorMessage := ""; pb.PostStatus_PostData := None |}.
Proof.
  split; [|split].
  - apply (proj1 (PostDataCreationProgressStream_delivery _ errors.errorString (list byte)
                    (client 5)
                    (progressService [writing 1024; writing 2048; writing 4096])
                    empty.mkEmpty [])
                 [writing 1024; writing 2048; writing 4096]).
    + reflexivity.
    + econstructor; [reflexivity|]. econstructor; [reflexivity|].
      econstructor; [reflexivity | constructor].
  - apply (proj1 (proj2 (PostDataCreationProgressStream_delivery _ errors.errorString
                           (list byte) (client 1)
                           (progressService [writing 1024; writing 2048; writing 4096])
                           empty.mkEmpty []))
                 [writing 1024] (writing 2048) [Some (writing 4096)]
                 [progress (writing 1024)]
                 (errors.New "transport is closing") [progress (writing 1024)]).
    + reflexivity.
    + econstructor; [reflexivity | constructor].
    + reflexivity.
  - destruct (proj2 (proj2 (PostDataCreationProgressStream_delivery _ errors.errorString
                              (list byte) (client 1) (progressService []) empty.mkEmpty []))
                    (writing 1024))
      as (st & Hst & Hbytes & _ & Hkind & Hmsg & Hflag).
    rewrite Hst. destruct st as [flag bytes kind msg data]. simpl in *.
    rewrite Hbytes, Hmsg, Hflag, Hkind by lia.
    injection Hst as _ _ _ _ <-. reflexivity.
Defined.

End smesher_service_spec.

(** * Further properties of [config.ParseServicesList] *)

Module config_more.

Import config spec.

Local Open Scope string_scope.
Local Open Scope list_scope.

Lemma requested_In (name : string) (svcs : list string) :
  requested name svcs = true <-> In name svcs.
Proof.
  unfold requested. rewrite existsb_exists. split.
  - intros (svc & Hin & Heq). apply String.eqb_eq in Heq. now subst.
  - intros Hin. exists name. split; [assumption | apply String.eqb_refl].
Qed.

Lemma recognized_cases (svc : string) :
  recognized svc = true <-> svc = "mesh" \/ svc = "node".
Proof.
  unfold recognized. rewrite orb_true_iff, !String.eqb_eq. reflexivity.
Qed.

(** A list that is not all recognized names holds a name that is not. *)
Lemma unrecognized_In (svcs : list string) :
  forallb recognized svcs = false ->
  exists bad, In bad svcs /\ recognized bad = false.
Proof.
  induction svcs as [|svc rest IH]; simpl; [discriminate|].
  destruct (recognized svc) eqn:Hsvc; simpl.
  - intros Hrest. destruct (IH Hrest) as (bad & Hin & Hbad). exists bad. auto.
  - intros _. exists svc. auto.
Qed.

Lemma enable_fields (svcs : list string) (s : Config) :
  StartGrpcServices (enable svcs s) = StartGrpcServices s
  /\ StartNewJSONServer (enable svcs s) = StartNewJSONServer s
  /\ StartNodeService (enable svcs s) = StartNodeService s || requested "node" svcs
  /\ StartMeshService (enable svcs s) = StartMeshService s || requested "mesh" svcs.
Proof. now destruct s. Qed.

(** Enabling the services of a list twice is enabling them once. *)
Lemma enable_idempotent (svcs : list string) (s : Config) :
  enable svcs (enable svcs s) = enable svcs s.
Proof.
  destruct s as [? ? ? ? ? ? ? ? node mesh].
  unfold enable, set_StartNodeService, set_StartMeshService; simpl.
  f_equal.
  - now destruct node, (requested "node" svcs).
  - now destruct mesh, (requested "mesh" svcs).
Qed.

(** The two ways a call goes: through the whole list and to the dependency
    check, or out at the first name that is not recognized. *)
Lemma ParseServicesList_cases (s : Config) :
  (forallb recognized (StartGrpcServices s) = true
   /\ ParseServicesList s =
        (enable (StartGrpcServices s) s,
         if StartNewJSONServer s
            && negb (StartNodeService s || requested "node" (StartGrpcServices s))
         then Some MissingDependency else None))
  \/ (exists pre first post,
        StartGrpcServices s = pre ++ first :: post
        /\ forallb recognized pre = true
        /\ recognized first = false
        /\ ParseServicesList s = (enable pre s, Some (UnknownService first))).
Proof.
  destruct (forallb recognized (StartGrpcServices s)) eqn:Hall.
  - left. split; [reflexivity|].
    unfold ParseServicesList.
    rewrite config_spec.rangeServices_recognized by assumption.
    destruct s as [? svcs ? ? ? gateway ? ? node mesh]; simpl.
    now destruct (gateway && negb (node || requested "node" svcs)).
  - right.
    destruct (unrecognized_In _ Hall) as (bad & Hin & Hbad).
    destruct (config_spec.first_unrecognized _ _ Hin Hbad)
      as (pre & first & post & Hsplit & Hpre & Hfirst).
    exists pre, first, post. repeat split; try assumption.
    unfold ParseServicesList. rewrite Hsplit.
    now rewrite config_spec.rangeServices_unrecognized.
Qed.

(** X3: [ParseServicesList] succeeds exactly when every requested name is
    recognized and, if the new JSON gateway is requested, the node service
    is enabled already or requested. *)
Theorem ParseServicesList_succeeds_iff (s : Config) :
  snd (ParseServicesList s) = None <->
  forallb recognized (StartGrpcServices s) = true
  /\ (StartNewJSONServer s = false
      \/ StartNodeService s = true
      \/ requested "node" (StartGrpcServices s) = true).
Proof.
  destruct (ParseServicesList_cases s)
    as [[Hall ->]|(pre & first & post & Hsplit & Hpre & Hfirst & ->)]; cbn [fst snd].
  - destruct (StartNewJSONServer s), (StartNodeService s),
      (requested "node" (StartGrpcServices s)); simpl;
      (split; [intros H; try discriminate H; auto | intros [_ [H|[H|H]]]; congruence]).
  - split; [discriminate|]. intros [Hall _].
    rewrite Hsplit, forallb_app in Hall. simpl in Hall.
    rewrite Hfirst, andb_false_r in Hall. discriminate Hall.
Qed.

(** X4: a second call of [ParseServicesList], on the configuration the first
    one left, leaves that configuration as it is and gives the same error or
    success. *)
Theorem ParseServicesList_idempotent (s : Config) :
  ParseServicesList (fst (ParseServicesList s)) = ParseServicesList s.
Proof.
  destruct (ParseServicesList_cases s)
    as [[Hall Hs]|(pre & first & post & Hsplit & Hpre & Hfirst & Hs)];
    rewrite Hs; cbn [fst snd].
  - destruct (enable_fields (StartGrpcServices s) s) as (Hl & Hg & Hn & _).
    destruct (ParseServicesList_cases (enable (StartGrpcServices s) s))
      as [[_ ->]|(pre & first & post & Hsplit & Hpre & Hfirst & _)].
    + rewrite Hl, Hg, Hn, enable_idempotent.
      now rewrite <- orb_assoc, orb_diag.
    + rewrite Hl in Hsplit. rewrite Hsplit, forallb_app in Hall. simpl in Hall.
      rewrite Hfirst, andb_false_r in Hall. discriminate Hall.
  - destruct (enable_fields pre s) as (Hl & _).
    unfold ParseServicesList. rewrite Hl, Hsplit.
    rewrite config_spec.rangeServices_unrecognized by assumption.
    now rewrite enable_idempotent.
Qed.

(** X5: in a configuration that [ParseServicesList] accepted, every
    requested name is one of the two services, the flag of each requested
    service is set, and the new JSON gateway is on only with the node
    service. *)
Theorem ParseServicesList_accepted (s : Config) :
  snd (ParseServicesList s) = None ->
  (forall svc, In svc (StartGrpcServices s) -> svc = "mesh" \/ svc = "node")
  /\ (In "mesh" (StartGrpcServices s) ->
      StartMeshService (fst (ParseServicesList s)) = true)
  /\ (In "node" (StartGrpcServices s) ->
      StartNodeService (fst (ParseServicesList s)) = true)
  /\ (StartNewJSONServer (fst (ParseServicesList s)) = true ->
      StartNodeService (fst (ParseServicesList s)) = true).
Proof.
  destruct (ParseServicesList_cases s)
    as [[Hall ->]|(pre & first & post & Hsplit & Hpre & Hfirst & ->)]; cbn [fst snd];
    [|discriminate].
  intros Hok.
  destruct (enable_fields (StartGrpcServices s) s) as (_ & Hg & Hn & Hm).
  rewrite Hg, Hn, Hm. repeat split.
  - intros svc Hin. apply recognized_cases.
    rewrite forallb_forall in Hall. now apply Hall.
  - intros Hin. apply requested_In in Hin. rewrite Hin. apply orb_true_r.
  - intros Hin. apply requested_In in Hin. rewrite Hin. apply orb_true_r.
  - intros Hgate. rewrite Hgate in Hok. simpl in Hok.
    destruct (StartNodeService s || requested "node" (StartGrpcServices s));
      [reflexivity | discriminate Hok].
Qed.

Lemma ParseServicesList_accepted_witness :
  (forall svc, In svc (StartGrpcServices (requesting ["node"; "mesh"; "node"] true)) ->
     svc = "mesh" \/ svc = "node")
  /\ (In "mesh" (StartGrpcServices (requesting ["node"; "mesh"; "node"] true)) ->
      StartMeshService (fst (ParseServicesList (requesting ["node"; "mesh"; "node"] true)))
      = true)
  /\ (In "node" (StartGrpcServices (requesting ["node"; "mesh"; "node"] true)) ->
      StartNodeService (fst (ParseServicesList (requesting ["node"; "mesh"; "node"] true)))
      = true)
  /\ (StartNewJSONServer (fst (ParseServicesList (requesting ["node"; "mesh"; "node"] true)))
      = true ->
      StartNodeService (fst (ParseServicesList (requesting ["node"; "mesh"; "node"] true)))
      = true).
Proof.
  apply (ParseServicesList_accepted (requesting ["node"; "mesh"; "node"] true)).
  reflexivity.
Defined.

(** X6: with no service requested, [ParseServicesList] leaves the
    configuration as it is, and fails exactly when the new JSON gateway is
    on and the node service is not. *)
Theorem ParseServicesList_no_service (s : Config) :
  StartGrpcServices s = [] ->
  ParseServicesList s =
    (s, if StartNewJSONServer s && negb (StartNodeService s)
        then Some MissingDependency else None).
Proof.
  intros Hnone. unfold ParseServicesList. rewrite Hnone. simpl.
  now destruct (StartNewJSONServer s && negb (StartNodeService s)).
Qed.

Lemma ParseServicesList_no_service_witness :
  ParseServicesList DefaultConfig = (DefaultConfig, None).
Proof.
  apply (ParseServicesList_no_service DefaultConfig). reflexivity.
Defined.

(** X17: [ParseServicesList] enables no service that was neither enabled
    before the call nor requested by the list, whether it fails or not. *)
Theorem ParseServicesList_enables_only_requested (s : Config) :
  (StartMeshService (fst (ParseServicesList s)) = true ->
   StartMeshService s = true \/ In "mesh" (StartGrpcServices s))
  /\ (StartNodeService (fst (ParseServicesList s)) = true ->
      StartNodeService s = true \/ In "node" (StartGrpcServices s)).
Proof.
  assert (Hpre : exists pre post,
             StartGrpcServices s = pre ++ post
             /\ fst (ParseServicesList s) = enable pre s).
  { destruct (ParseServicesList_cases s)
      as [[Hall ->]|(pre & first & post & Hsplit & _ & _ & ->)].
    - exists (StartGrpcServices s), []. now rewrite app_nil_r.
    - exists pre, (first :: post). auto. }
  destruct Hpre as (pre & post & Hsplit & ->).
  destruct (enable_fields pre s) as (_ & _ & Hn & Hm).
  rewrite Hn, Hm, Hsplit. split; intros Hset; apply orb_true_iff in Hset as [Hold|Hreq].
  - now left.
  - right. apply in_or_app. left. now apply requested_In.
  - now left.
  - right. apply in_or_app. left. now apply requested_In.
Qed.

End config_more.

(** * Properties of the rest of the two services *)

Module services_more.

Import runtime grpcserver spec laws.

Local Open Scope string_scope.
Local Open Scope list_scope.

(** Converting to [uint] and back to [uint32] loses nothing more than
    converting to [uint32]. *)
Lemma uint32_uint (arch : platform) (x : Z) : uint32 (uint arch x) = uint32 x.
Proof.
  unfold uint32, uint. destruct arch; simpl UintSize.
  - apply Z.mod_mod. lia.
  - apply Z.mod_mod_divide. exists (2 ^ 32). reflexivity.
Qed.

(** The data that [statusToPbStatus] makes of the options that
    [CreatePostData] made of some data is that data, when its provider id is
    one of a [uint32] field. *)
Lemma options_data (arch : platform) (d : pb.PostData) (st : activation.PostStatus) :
  0 <= pb.ProviderId d < 2 ^ 32 ->
  activation.LastOptions st = Some (options arch d) ->
  pb.PostStatus_PostData (statusToPbStatus st) = Some d.
Proof.
  intros Hid Hlast. unfold statusToPbStatus. simpl. rewrite Hlast. simpl.
  rewrite uint32_uint. unfold uint32. rewrite Z.mod_small by assumption.
  now destruct d.
Qed.

Section Services.

Variables World Err Address : Type.
Context `{!error Err}.
Variable arch : platform.
Variable BytesToAddress : list byte -> Address.
Variable Bytes : Address -> list byte.
Variable Hex2Bytes : string -> list byte.
Variables cmd_Version cmd_Commit : string.
Variable cmd_Cancel : M World unit.
Variable Benchmark : activation.PostComputeProvider -> M World (Z * option Err).
Variables SyncStartRequest ShutdownRequest StopSmeshingRequest : Type.
Variables MinGasResponse SetMinGasRequest SetMinGasResponse : Type.

Implicit Types (s : grpcserver_rest.SmesherService World Err Address) (w : World).

(** X7: a [SetCoinbase] request without an id fails with InvalidArgument
    and leaves the state of the node as it was; with an id, the coinbase of
    the backend is set to the address of its bytes and the answer is an OK
    status: the call cannot fail. *)
Theorem SetCoinbase_outcomes s (in_ : pb_rest.SetCoinbaseRequest) w :
  (pb_rest.Id in_ = None ->
     grpcserver_rest.SetCoinbase BytesToAddress s in_ w
     = ((None, Some (InvalidArgument "`Id` must be provided")), w))
  /\ (forall id,
        pb_rest.Id in_ = Some id ->
        grpcserver_rest.SetCoinbase BytesToAddress s in_ w
        = ((Some {| pb_rest.SetCoinbaseResponse_Status := statusOK |}, None),
           snd (api_rest.SetCoinbase (grpcserver_rest.smeshing s)
                  (BytesToAddress (pb.Address id)) w))).
Proof.
  unfold grpcserver_rest.SetCoinbase. split.
  - intros ->. reflexivity.
  - intros id ->. unfold bind.
    now destruct (api_rest.SetCoinbase (grpcserver_rest.smeshing s)
                    (BytesToAddress (pb.Address id)) w) as [[] w'].
Qed.

(** X8: on a backend that reports the coinbase it was last given, [Coinbase]
    after a [SetCoinbase] with an id answers with the bytes of the address
    made of the bytes of that id. *)
Theorem SetCoinbase_then_Coinbase s (in_ : pb_rest.SetCoinbaseRequest) (id : pb.AccountId) w :
  keepsCoinbase (grpcserver_rest.smeshing s) ->
  pb_rest.Id in_ = Some id ->
  exists w',
    grpcserver_rest.SetCoinbase BytesToAddress s in_ w
    = ((Some {| pb_rest.SetCoinbaseResponse_Status := statusOK |}, None), w')
    /\ grpcserver_rest.Coinbase Bytes s empty.mkEmpty w'
       = ((Some {| pb_rest.CoinbaseResponse_AccountId :=
                     Some {| pb.Address := Bytes (BytesToAddress (pb.Address id)) |} |},
           None), w').
Proof.
  intros Hkeeps Hid.
  exists (snd (api_rest.SetCoinbase (grpcserver_rest.smeshing s)
                 (BytesToAddress (pb.Address id)) w)).
  split.
  - unfold grpcserver_rest.SetCoinbase. rewrite Hid. unfold bind.
    now destruct (api_rest.SetCoinbase (grpcserver_rest.smeshing s)
                    (BytesToAddress (pb.Address id)) w) as [[] w'].
  - unfold grpcserver_rest.Coinbase, bind, read, ret. now rewrite Hkeeps.
Qed.

(** X9: [CreatePostData] on a request without data panics, the backend not
    called; with data, the backend is started with the options made of the
    fields of the data, and its error comes back as it is, its success as an
    OK status. *)
Theorem CreatePostData_outcomes s (in_ : pb_rest.CreatePostDataRequest) w :
  (pb_rest.Data in_ = None ->
     grpcserver_rest.CreatePostData arch s in_ w = (panics, w))
  /\ (forall d err w',
        pb_rest.Data in_ = Some d ->
        api_rest.CreatePostData (grpcserver_rest.post s) (options arch d) w = (Some err, w') ->
        grpcserver_rest.CreatePostData arch s in_ w
        = (returns (None, Some (status.passed err)), w'))
  /\ (forall d w',
        pb_rest.Data in_ = Some d ->
        api_rest.CreatePostData (grpcserver_rest.post s) (options arch d) w = (None, w') ->
        grpcserver_rest.CreatePostData arch s in_ w
        = (returns (Some {| pb_rest.CreatePostDataResponse_Status := statusOK |}, None), w')).
Proof.
  unfold grpcserver_rest.CreatePostData. split; [|split].
  - intros ->. reflexivity.
  - intros d err w' -> Hcall. unfold bind. fold (options arch d). now rewrite Hcall.
  - intros d w' -> Hcall. unfold bind. fold (options arch d). now rewrite Hcall.
Qed.

(** X10: [PostStatus] returns the error of the backend as it is, whatever
    status came with it; the status of the backend converted, when there is
    no error; and panics when the backend gives neither. *)
Theorem PostStatus_outcomes s (in_ : empty.Empty) w :
  (forall st err,
     api_rest.PostStatus (grpcserver_rest.post s) w = (st, Some err) ->
     grpcserver_rest.PostStatus s in_ w = (returns (None, Some (status.passed err)), w))
  /\ (forall st,
        api_rest.PostStatus (grpcserver_rest.post s) w = (Some st, None) ->
        grpcserver_rest.PostStatus s in_ w
        = (returns (Some {| pb_rest.PostStatusResponse_Status := Some (statusToPbStatus st) |},
                    None), w))
  /\ (api_rest.PostStatus (grpcserver_rest.post s) w = (None, None) ->
      grpcserver_rest.PostStatus s in_ w = (panics, w)).
Proof.
  unfold grpcserver_rest.PostStatus, bind, read.
  split; [|split].
  - intros st err ->. now destruct st.
  - intros st ->. reflexivity.
  - intros ->. reflexivity.
Qed.

(** X11: on a backend that reports the options of the data creation it last
    started, [PostStatus] after a [CreatePostData] that succeeded answers
    with a status whose data are the data of the request. *)
Theorem CreatePostData_then_PostStatus s (in_ : pb_rest.CreatePostDataRequest)
    (d : pb.PostData) (resp : pb_rest.CreatePostDataResponse) w w' :
  keepsOptions (grpcserver_rest.post s) ->
  pb_rest.Data in_ = Some d ->
  0 <= pb.ProviderId d < 2 ^ 32 ->
  grpcserver_rest.CreatePostData arch s in_ w = (returns (Some resp, None), w') ->
  exists st,
    grpcserver_rest.PostStatus s empty.mkEmpty w'
    = (returns (Some {| pb_rest.PostStatusResponse_Status := Some st |}, None), w')
    /\ pb.PostStatus_PostData st = Some d.
Proof.
  intros Hkeeps Hdata Hid Hcreate.
  unfold grpcserver_rest.CreatePostData in Hcreate. rewrite Hdata in Hcreate.
  unfold bind in Hcreate. fold (options arch d) in Hcreate.
  destruct (api_rest.CreatePostData (grpcserver_rest.post s) (options arch d) w)
    as [[err|] w1] eqn:Hcall; [discriminate Hcreate|].
  injection Hcreate as _ <-.
  destruct (Hkeeps _ _ _ Hcall) as (st & Hst & Hlast).
  exists (statusToPbStatus st). split.
  - unfold grpcserver_rest.PostStatus, bind, read. now rewrite Hst.
  - now apply (options_data arch).
Qed.

(** X13: [StopSmeshing] and [StopPostDataCreationSession] return the error
    of the backend as it is, not as an Internal status, and an OK status
    when there is none; the backend is told [DeleteFiles] as the request has
    it. *)
Theorem stop_commands s w :
  (forall (in_ : StopSmeshingRequest) err w',
     api_rest.StopSmeshing (grpcserver_rest.smeshing s) w = (Some err, w') ->
     grpcserver_rest.StopSmeshing s in_ w = ((None, Some (status.passed err)), w'))
  /\ (forall (in_ : StopSmeshingRequest) w',
        api_rest.StopSmeshing (grpcserver_rest.smeshing s) w = (None, w') ->
        grpcserver_rest.StopSmeshing s in_ w
        = ((Some {| pb_rest.StopSmeshingResponse_Status := statusOK |}, None), w'))
  /\ (forall in_ err w',
        api_rest.StopPostDataCreationSession (grpcserver_rest.post s)
          (pb_rest.DeleteFiles in_) w = (Some err, w') ->
        grpcserver_rest.StopPostDataCreationSession s in_ w
        = ((None, Some (status.passed err)), w'))
  /\ (forall in_ w',
        api_rest.StopPostDataCreationSession (grpcserver_rest.post s)
          (pb_rest.DeleteFiles in_) w = (None, w') ->
        grpcserver_rest.StopPostDataCreationSession s in_ w
        = ((Some {| pb_rest.StopPostDataCreationSessionResponse_Status := statusOK |}, None),
           w')).
Proof.
  unfold grpcserver_rest.StopSmeshing, grpcserver_rest.StopPostDataCreationSession, bind.
  split; [|split; [|split]].
  - intros in_ err w' Hcall. now rewrite Hcall.
  - intros in_ w' Hcall. now rewrite Hcall.
  - intros in_ err w' Hcall. now rewrite Hcall.
  - intros in_ w' Hcall. now rewrite Hcall.
Qed.

(** X14: every unary endpoint of the two services answers, in every state
    and on every request, with a response or with an error, never with both
    and never with neither (the two that can panic: when they return). *)
Theorem unary_results_exclusive (n : grpcserver_rest.NodeService World) s w :
  (forall in_, exclusive (Echo (Err:=Err) (grpcserver_rest.node n) in_) = true)
  /\ (forall request,
        exclusive (fst (Status (Err:=Err) (grpcserver_rest.node n) request w)) = true)
  /\ (forall in_, exclusive (grpcserver_rest.Version (Err:=Err) cmd_Version n in_) = true)
  /\ (forall in_, exclusive (grpcserver_rest.Build (Err:=Err) cmd_Commit n in_) = true)
  /\ (forall request : SyncStartRequest,
        exclusive (fst (grpcserver_rest.SyncStart (Err:=Err) n request w)) = true)
  /\ (forall request : ShutdownRequest,
        exclusive (fst (grpcserver_rest.Shutdown (Err:=Err) cmd_Cancel n request w)) = true)
  /\ (forall in_, exclusive (fst (grpcserver_rest.IsSmeshing s in_ w)) = true)
  /\ (forall in_,
        exclusive (fst (StartSmeshing BytesToAddress (grpcserver_rest.smesher s) in_ w)) = true)
  /\ (forall in_ : StopSmeshingRequest,
        exclusive (fst (grpcserver_rest.StopSmeshing s in_ w)) = true)
  /\ (forall in_, exclusive (fst (grpcserver_rest.SmesherID Hex2Bytes s in_ w)) = true)
  /\ (forall in_, exclusive (fst (grpcserver_rest.Coinbase Bytes s in_ w)) = true)
  /\ (forall in_, exclusive (fst (grpcserver_rest.SetCoinbase BytesToAddress s in_ w)) = true)
  /\ (forall in_,
        exclusive (MinGas (MinGasResponse:=MinGasResponse) (grpcserver_rest.smesher s) in_)
        = true)
  /\ (forall in_ : SetMinGasRequest,
        exclusive (SetMinGas (SetMinGasResponse:=SetMinGasResponse)
                     (grpcserver_rest.smesher s) in_) = true)
  /\ (forall in_, exclusive_if_returned (fst (grpcserver_rest.PostStatus s in_ w)) = true)
  /\ (forall in_,
        exclusive (fst (PostComputeProviders Benchmark (grpcserver_rest.smesher s) in_ w))
        = true)
  /\ (forall in_,
        exclusive_if_returned (fst (grpcserver_rest.CreatePostData arch s in_ w)) = true)
  /\ (forall in_,
        exclusive (fst (grpcserver_rest.StopPostDataCreationSession s in_ w)) = true).
Proof.
  repeat split; intros; try reflexivity.
  - unfold Echo. now destruct (pb.EchoRequest_Msg in_).
  - unfold grpcserver_rest.SyncStart, bind.
    now destruct (api_rest.Start (grpcserver_rest.Syncer n) w).
  - unfold grpcserver_rest.Shutdown, bind. now destruct (cmd_Cancel w).
  - unfold StartSmeshing. destruct (pb.Coinbase in_) as [coinbase|]; [|reflexivity].
    unfold bind.
    now destruct (api.StartSmeshing (smeshing (grpcserver_rest.smesher s))
                    (BytesToAddress (pb.Address coinbase)) w) as [[err|] w'].
  - unfold grpcserver_rest.StopSmeshing, bind.
    now destruct (api_rest.StopSmeshing (grpcserver_rest.smeshing s) w) as [[err|] w'].
  - unfold grpcserver_rest.SetCoinbase. destruct (pb_rest.Id in_) as [id|]; [|reflexivity].
    unfold bind.
    now destruct (api_rest.SetCoinbase (grpcserver_rest.smeshing s)
                    (BytesToAddress (pb.Address id)) w).
  - unfold grpcserver_rest.PostStatus, bind, read.
    now destruct (api_rest.PostStatus (grpcserver_rest.post s) w) as [[st|] [err|]].
  - unfold PostComputeProviders, bind, read.
    now destruct (rangeProviders Benchmark 0
                    (api.PostComputeProviders (post (grpcserver_rest.smesher s)) w)
                    (replicate
                       (length (api.PostComputeProviders
                                  (post (grpcserver_rest.smesher s)) w)) None) w)
      as [[res|err] w'].
  - unfold grpcserver_rest.CreatePostData. destruct (pb_rest.Data in_) as [d|]; [|reflexivity].
    unfold bind.
    now destruct (api_rest.CreatePostData (grpcserver_rest.post s) _ w) as [[err|] w'].
  - unfold grpcserver_rest.StopPostDataCreationSession, bind.
    now destruct (api_rest.StopPostDataCreationSession (grpcserver_rest.post s)
                    (pb_rest.DeleteFiles in_) w) as [[err|] w'].
Qed.

(** X15: [PostComputeProviders] goes one of two ways, in every state: the
    benchmarks of all the providers succeed and it answers with their
    entries, or the benchmark of one fails, those before it having
    succeeded, and it answers with that error. *)
Theorem PostComputeProviders_outcome (s0 : SmesherService World Err Address)
    (in_ : empty.Empty) w :
  (exists hss w',
     benchmarked Benchmark w (api.PostComputeProviders (post s0) w) hss w'
     /\ PostComputeProviders Benchmark s0 in_ w
        = ((Some {| pb.PostComputeProvidersResponse_PostComputeProvider :=
                      map Some (zip_with entry (api.PostComputeProviders (post s0) w) hss) |},
            None), w'))
  \/ (exists pre p rest hss w1 hs err w2,
        api.PostComputeProviders (post s0) w = pre ++ p :: rest
        /\ benchmarked Benchmark w pre hss w1
        /\ Benchmark p w1 = ((hs, Some err), w2)
        /\ PostComputeProviders Benchmark s0 in_ w = ((None, Some (status.passed err)), w2)).
Proof.
  destruct (smesher_service_spec.benchmarks_outcome _ _ Benchmark
              (api.PostComputeProviders (post s0) w) w)
    as [(hss & w' & Hall)|(pre & p & rest & hss & w1 & hs & err & w2 & Hsplit & Hpre & Hfail)].
  - left. exists hss, w'. split; [assumption|].
    pose proof (smesher_service_spec.rangeProviders_benchmarked _ _ _ _ _ _ _ Hall [])
      as Hrun.
    simpl in Hrun. unfold PostComputeProviders, bind, read. now rewrite Hrun.
  - right. exists pre, p, rest, hss, w1, hs, err, w2. repeat split; try assumption.
    unfold PostComputeProviders, bind, read. rewrite Hsplit.
    now rewrite (smesher_service_spec.rangeProviders_failed _ _ _ _ _ _ _ _ _ _ _ _
                   Hpre Hfail).
Qed.

(** X16: [PostDataCreationProgressStream] panics at a nil event of the
    channel, having sent the events before it, which the client accepted;
    and when the client accepted every event and the channel stays open
    after them, it does not return: it blocks on the next receive. *)
Theorem PostDataCreationProgressStream_nil_or_open (s0 : SmesherService World Err Address)
    (request : empty.Empty)
    (stream : pb.ServerStream World Err pb.PostDataCreationProgressStreamResponse) w :
  (forall pre rest w1,
     channel.values (api.PostDataCreationProgressStream (post s0) w)
     = map Some pre ++ None :: rest ->
     delivered stream w pre w1 ->
     PostDataCreationProgressStream s0 request stream w = (channel.panics, w1))
  /\ (forall es w',
        api.PostDataCreationProgressStream (post s0) w = channel.mkChan (map Some es) false ->
        delivered stream w es w' ->
        PostDataCreationProgressStream s0 request stream w = (channel.blocks, w')).
Proof.
  unfold PostDataCreationProgressStream, bind, read. split.
  - intros pre rest w1 -> Hpre. now apply smesher_service_spec.rangeProgress_nil.
  - intros es w' -> Hall. simpl.
    now rewrite (smesher_service_spec.rangeProgress_delivered _ _ _ _ _ _ false Hall).
Qed.

End Services.

(** X12: the message that [statusToPbStatus] makes has data exactly when
    the status has last options; the data are the fields of the options,
    the provider id cut to 32 bits; and data that went through the options
    of [CreatePostData] come back as they were. *)
Theorem statusToPbStatus_PostData (st : activation.PostStatus) :
  (pb.PostStatus_PostData (statusToPbStatus st) = None
   <-> activation.LastOptions st = None)
  /\ (forall o,
        activation.LastOptions st = Some o ->
        pb.PostStatus_PostData (statusToPbStatus st)
        = Some {| pb.Path := activation.DataDir o;
                  pb.DataSize := activation.DataSize o;
                  pb.Append := activation.Append o;
                  pb.Throttle := activation.Throttle o;
                  pb.ProviderId := activation.ComputeProviderId o mod 2 ^ 32 |})
  /\ (forall arch d,
        0 <= pb.ProviderId d < 2 ^ 32 ->
        activation.LastOptions st = Some (options arch d) ->
        pb.PostStatus_PostData (statusToPbStatus st) = Some d).
Proof.
  split; [|split].
  - unfold statusToPbStatus. simpl.
    destruct (activation.LastOptions st); split; intros Hnone; congruence.
  - intros o Hlast. unfold statusToPbStatus. simpl. now rewrite Hlast.
  - intros arch d Hid Hlast. unfold statusToPbStatus. simpl. rewrite Hlast. simpl.
    rewrite uint32_uint. unfold uint32. rewrite Z.mod_small by assumption.
    now destruct d.
Qed.

Lemma PostDataCreationProgressStream_nil_or_open_witness :
  PostDataCreationProgressStream
    (channelService (channel.mkChan [Some (writing 1024); None; Some (writing 4096)] true))
    empty.mkEmpty (client 5) []
  = (channel.panics, [progress (writing 1024)])
  /\ PostDataCreationProgressStream
       (channelService (channel.mkChan [Some (writing 1024); Some (writing 2048)] false))
       empty.mkEmpty (client 5) []
     = (channel.blocks, [progress (writing 1024); progress (writing 2048)]).
Proof.
  split.
  - apply (proj1 (PostDataCreationProgressStream_nil_or_open _ errors.errorString (list byte)
                    (channelService
                       (channel.mkChan [Some (writing 1024); None; Some (writing 4096)] true))
                    empty.mkEmpty (client 5) [])
                 [writing 1024] [Some (writing 4096)]).
    + reflexivity.
    + econstructor; [reflexivity | constructor].
  - apply (proj2 (PostDataCreationProgressStream_nil_or_open _ errors.errorString (list byte)
                    (channelService
                       (channel.mkChan [Some (writing 1024); Some (writing 2048)] false))
                    empty.mkEmpty (client 5) [])
                 [writing 1024; writing 2048]).
    + reflexivity.
    + econstructor; [reflexivity|]. econstructor; [reflexivity | constructor].
Defined.

Lemma SetCoinbase_then_Coinbase_witness :
  exists w',
    grpcserver_rest.SetCoinbase (fun b => b) rigService
      {| pb_rest.Id := Some {| pb.Address := [x0a; x0b] |} |}
      {| coinbase := []; session := None |}
    = ((Some {| pb_rest.SetCoinbaseResponse_Status := statusOK |}, None), w')
    /\ grpcserver_rest.Coinbase (fun a => a) rigService empty.mkEmpty w'
       = ((Some {| pb_rest.CoinbaseResponse_AccountId :=
                     Some {| pb.Address := [x0a; x0b] |} |}, None), w').
Proof.
  apply (SetCoinbase_then_Coinbase rig errors.errorString (list byte)
           (fun b => b) (fun a => a) rigService
           {| pb_rest.Id := Some {| pb.Address := [x0a; x0b] |} |}
           {| pb.Address := [x0a; x0b] |} {| coinbase := []; session := None |}).
  - intros addr w. reflexivity.
  - reflexivity.
Defined.

Lemma rigPost_keepsOptions : keepsOptions rigPost.
Proof.
  intros o w w' Hcall. simpl in Hcall.
  destruct (session w); [discriminate Hcall|].
  injection Hcall as <-. eexists. split; reflexivity.
Defined.

Lemma CreatePostData_then_PostStatus_witness :
  exists st,
    grpcserver_rest.PostStatus rigService empty.mkEmpty
      {| coinbase := []; session := Some (options bits64 someData) |}
    = (returns (Some {| pb_rest.PostStatusResponse_Status := Some st |}, None),
       {| coinbase := []; session := Some (options bits64 someData) |})
    /\ pb.PostStatus_PostData st = Some someData.
Proof.
  apply (CreatePostData_then_PostStatus rig errors.errorString (list byte) bits64
           rigService {| pb_rest.Data := Some someData |} someData
           {| pb_rest.CreatePostDataResponse_Status := statusOK |}
           {| coinbase := []; session := None |}
           {| coinbase := []; session := Some (options bits64 someData) |}).
  - exact rigPost_keepsOptions.
  - reflexivity.
  - simpl. lia.
  - reflexivity.
Defined.

End services_more.
